(** * DuckDBWrapper: a shallow embedding of [duckDB/duckdb_wrapper.py]

    The wrapper is a thin facade over two external collaborators: the
    embedded engine (module [duckdb]) and the identity service ([boto3]).
    Both are opaque here: the engine is a deterministic oracle that answers
    a call from the history of the calls made so far, the identity service
    is a record of answers.  Every method of the class is a computation in
    a state-and-exception monad whose state holds the wrapper object
    ([self]), the trace of engine calls and the log records. *)

From Stdlib Require Import Ascii String.
From stdpp Require Import base gmap strings list pretty.


(** ** Python values, exceptions, rows *)

Inductive pyval : Type :=
  | PyNone
  | PyBool (b : bool)
  | PyInt (z : Z)
  | PyStr (s : string)
  | PyObj (repr : string).

(** The exception classes the module can see.  [DuckDBError] stands for
    [duckdb.Error] and all of its subclasses, [OtherException] for any other
    subclass of [Exception] an external call may raise. *)
Inductive exn : Type :=
  | ConnectionError (msg : string)
  | ValueError (msg : string)
  | AttributeError (msg : string)
  | DuckDBError (msg : string)
  | OtherException (cls msg : string).

(** [str(e)] *)
Definition str (e : exn) : string :=
  match e with
  | ConnectionError m | ValueError m | AttributeError m
  | DuckDBError m | OtherException _ m => m
  end.

(** [isinstance(e, duckdb.Error)] *)
Definition is_duckdb_Error (e : exn) : bool :=
  match e with DuckDBError _ => true | _ => false end.

Inductive Outcome (A : Type) : Type :=
  | Returned (a : A)
  | Raised (e : exn).
Arguments Returned {A} a.
Arguments Raised {A} e.

(** A row mapping, [Dict[str, Any]]. *)
Abbreviation Row := (gmap string pyval).

(** [params: Union[List, Dict]] *)
Inductive Params : Type :=
  | ParamList (l : list pyval)
  | ParamDict (d : gmap string pyval).

(** [pd.DataFrame(data)]: the frame is only handed to the engine, which
    finds it by name in the scope of the calling method. *)
Record DataFrame : Type := { records : list Row }.

Definition pd_DataFrame (data : list Row) : DataFrame := {| records := data |}.

(** ** The engine boundary *)

Definition Handle : Type := nat.

(** One entry of a cursor's [description]; [desc[0]] is the column name. *)
Record ColumnDesc : Type := { col_name : string; type_code : string }.

(** What [execute] hands back: the result metadata, the rows still to be
    fetched, and the error (if any) the engine raises once those rows are
    consumed.  The cursor is a value of its own here: statements interleaved
    with a half-read cursor on the same connection are not modelled. *)
Record Cursor : Type := {
  description : list ColumnDesc;
  pending : list (list pyval);
  failure : option exn
}.

Inductive EngineCall : Type :=
  | DuckdbConnect (database : option string) (opened : option Handle)
  | ConnClose (h : Handle)
  | ConnExecute (h : Handle) (query : string) (params : option Params)
                (df : option DataFrame)
  | ConnInstallExtension (h : Handle) (ext : string)
  | ConnLoadExtension (h : Handle) (ext : string)
  | CursorFetchall
  | CursorFetchone.

(** The engine answers from the calls made before. *)
Record Engine : Type := {
  duckdb_connect : list EngineCall → option string → option exn;
  duckdb_execute : list EngineCall → Handle → string → option Params →
                   option DataFrame → Outcome Cursor;
  duckdb_install_extension : list EngineCall → Handle → string → option exn;
  duckdb_load_extension : list EngineCall → Handle → string → option exn
}.

(** ** The identity-service boundary *)

Record ReadOnlyCredentials : Type := {
  access_key : string;
  secret_key : string;
  token : option string
}.

(** What the calls on the [boto3] session answer.  [get_credentials] is
    [None] when [session.get_credentials()] returns [None], and
    [Some (Raised e)] when fetching or freezing raises.  Building the
    session and the [sts] client is taken to succeed. *)
Record Boto3 : Type := {
  get_caller_identity : option exn;
  get_credentials : option (Outcome ReadOnlyCredentials);
  region_name : option string
}.

(** ** The wrapper object and the monad *)

Record DuckDBWrapper : Type := { _conn : option Handle; db_file : option string }.

Inductive Level : Type := INFO | ERROR.

Record Env : Type := {
  this : DuckDBWrapper;
  calls : list EngineCall;
  logs : list (Level * string)
}.

Definition M (A : Type) : Type := Env → Outcome A * Env.

Global Instance M_ret : MRet M := λ A a env, (Returned a, env).
Global Instance M_bind : MBind M := λ A B f m env,
  match m env with
  | (Returned a, env') => f a env'
  | (Raised e, env') => (Raised e, env')
  end.

Definition raise {A} (e : exn) : M A := λ env, (Raised e, env).

Definition get_self : M DuckDBWrapper := λ env, (Returned (this env), env).

Definition set_conn (c : option Handle) : M unit := λ env,
  (Returned (),
   {| this := {| _conn := c; db_file := db_file (this env) |};
      calls := calls env; logs := logs env |}).

Definition log_record (lvl : Level) (msg : string) : M unit := λ env,
  (Returned (),
   {| this := this env; calls := calls env; logs := logs env ++ [(lvl, msg)] |}).

Definition logger_info : string → M unit := log_record INFO.
Definition logger_error : string → M unit := log_record ERROR.

(** Append one engine call to the trace. *)
Definition record_call (c : EngineCall) : M unit := λ env,
  (Returned (),
   {| this := this env; calls := calls env ++ [c]; logs := logs env |}).

Definition get_calls : M (list EngineCall) := λ env, (Returned (calls env), env).

Definition of_outcome {A} (o : Outcome A) : M A := λ env, (o, env).

Definition of_status (o : option exn) : M unit :=
  match o with Some e => raise e | None => mret () end.

(** The two handlers every method ends with:
<<
    except duckdb.Error as e:  self.logger.error(f"<duck>{str(e)}"); raise
    except Exception as e:     self.logger.error(f"<other>{str(e)}"); raise
>> *)
Definition try_except {A} (body : M A) (duck other : string) : M A := λ env,
  match body env with
  | (Returned a, env') => (Returned a, env')
  | (Raised e, env') =>
      let prefix := if is_duckdb_Error e then duck else other in
      (logger_error (prefix +:+ str e) ;; raise e) env'
  end.

(** ** Python library functions the module uses *)

(** [dict(items)]: a later pair overrides an earlier one with the same key. *)
Definition dict (items : list (string * pyval)) : Row :=
  fold_left (λ d kv, <[kv.1 := kv.2]> d) items ∅.

(** [f"{value}"] for a value that may be [None]. *)
Definition format_opt (value : option string) : string := default "None" value.

(** Truth value of an optional list argument: [None] and [[]] are false. *)
Definition truthy {A} (l : option (list A)) : bool :=
  match l with Some (_ :: _) => true | _ => false end.

(** [str.upper] on ASCII letters. *)
Definition upper_ascii (c : ascii) : ascii :=
  let n := nat_of_ascii c in
  if (97 <=? n)%nat && (n <=? 122)%nat then ascii_of_nat (n - 32) else c.

Fixpoint upper (s : string) : string :=
  match s with
  | EmptyString => EmptyString
  | String c s' => String (upper_ascii c) (upper s')
  end.

Fixpoint endswith_sep (s : string) : bool :=
  match s with
  | EmptyString => false
  | String c EmptyString => bool_decide (c = "/"%char)
  | String _ s' => endswith_sep s'
  end.

(** [os.path.join(a, b)] (posixpath). *)
Definition os_path_join (a b : string) : string :=
  match b with
  | String "/"%char _ => b
  | _ => if bool_decide (a = "") || endswith_sep a then a +:+ b
         else a +:+ "/" +:+ b
  end.

(** A [for] loop over a list. *)
Fixpoint for_each {A} (l : list A) (body : A → M unit) : M unit :=
  match l with
  | [] => mret ()
  | x :: l' => body x ;; for_each l' body
  end.

(** The suspended states of the generator [execute_query_fetch_one]
    returns: not started yet, suspended at the [yield] with its locals, or
    finished. *)
Inductive Generator : Type :=
  | GenCreated (query : string) (params : option Params)
  | GenSuspended (columns : list string) (result : Cursor) (row_count : nat)
  | GenClosed.

Section Wrapper.

Variable eng : Engine.
Variable aws : Boto3.

(** *** Calls on the engine *)

(** [duckdb.connect(database)]; a new connection object is named by the
    position of the call in the trace. *)
Definition connect (database : option string) : M Handle :=
  tr ← get_calls;
  match duckdb_connect eng tr database with
  | Some e => record_call (DuckdbConnect database None) ;; raise e
  | None =>
      record_call (DuckdbConnect database (Some (length tr))) ;;
      mret (length tr)
  end.

(** Attribute lookup [self._conn.<attr>]: fails on [None]. *)
Definition conn_attr (attr : string) : M Handle :=
  self ← get_self;
  match _conn self with
  | Some h => mret h
  | None =>
      raise (AttributeError
               ("'NoneType' object has no attribute '" +:+ attr +:+ "'"))
  end.

(** [self._conn.execute(query, params)], with the frame [df] (if any)
    that is in scope at the call. *)
Definition conn_execute (query : string) (params : option Params)
    (df : option DataFrame) : M Cursor :=
  h ← conn_attr "execute";
  tr ← get_calls;
  record_call (ConnExecute h query params df) ;;
  of_outcome (duckdb_execute eng tr h query params df).

Definition conn_install_extension (ext : string) : M unit :=
  h ← conn_attr "install_extension";
  tr ← get_calls;
  record_call (ConnInstallExtension h ext) ;;
  of_status (duckdb_install_extension eng tr h ext).

Definition conn_load_extension (ext : string) : M unit :=
  h ← conn_attr "load_extension";
  tr ← get_calls;
  record_call (ConnLoadExtension h ext) ;;
  of_status (duckdb_load_extension eng tr h ext).

Definition conn_close : M unit :=
  h ← conn_attr "close";
  record_call (ConnClose h).

(** [result.fetchall()] *)
Definition fetchall (result : Cursor) : M (list (list pyval)) :=
  record_call CursorFetchall ;;
  match failure result with
  | Some e => raise e
  | None => mret (pending result)
  end.

(** [result.fetchone()]: the next row and the advanced cursor, or [None]
    when the cursor is exhausted. *)
Definition fetchone (result : Cursor) : M (option (list pyval) * Cursor) :=
  record_call CursorFetchone ;;
  match pending result with
  | row :: rest =>
      mret (Some row,
            {| description := description result; pending := rest;
               failure := failure result |})
  | [] =>
      match failure result with
      | Some e => raise e
      | None => mret (None, result)
      end
  end.

(** *** Life cycle *)

(** [DuckDBWrapper(db_file)]: a new object, in a world whose engine
    trace and log so far are [tr] and [lg]. *)
Definition __init__ (db_file : option string) (tr : list EngineCall)
    (lg : list (Level * string)) : Env :=
  {| this := {| _conn := None; db_file := db_file |};
     calls := tr;
     logs := lg ++ [(INFO, "DuckDBWrapper initialized")] |}.

Definition create_duckdb_connection : M unit :=
  self ← get_self;
  match db_file self with
  | Some f =>
      if bool_decide (f ≠ "") then
        h ← connect (Some f);
        set_conn (Some h) ;;
        logger_info
          ("DuckDB connection established with database file: " +:+ f)
      else
        h ← connect None;
        set_conn (Some h) ;;
        logger_info "In-memory DuckDB connection established"
  | None =>
      h ← connect None;
      set_conn (Some h) ;;
      logger_info "In-memory DuckDB connection established"
  end.

Definition close : M unit :=
  self ← get_self;
  match _conn self with
  | Some _ =>
      conn_close ;;
      set_conn None ;;
      logger_info "Database connection closed"
  | None => mret ()
  end.

Definition __enter__ : M unit := create_duckdb_connection.

(** [__exit__] ignores the exception it is told about and returns [None]. *)
Definition __exit__ (exc : option exn) : M unit := close.

(** [with self: body].  [__exit__] returns a false value, so an exception
    of the body is raised again after [__exit__] has run. *)
Definition with_scope {A} (body : M A) : M A := λ env,
  match __enter__ env with
  | (Raised e, env1) => (Raised e, env1)
  | (Returned _, env1) =>
      match body env1 with
      | (Returned a, env2) =>
          match __exit__ None env2 with
          | (Returned _, env3) => (Returned a, env3)
          | (Raised e', env3) => (Raised e', env3)
          end
      | (Raised e, env2) =>
          match __exit__ (Some e) env2 with
          | (Returned _, env3) => (Raised e, env3)
          | (Raised e', env3) => (Raised e', env3)
          end
      end
  end.

(** *** Remote storage *)

Definition set_s3_credentials (aws_creds : list (string * option string))
    : M unit :=
  for_each aws_creds (λ kv,
    conn_execute ("SET " +:+ kv.1 +:+ "='" +:+ format_opt kv.2 +:+ "'")
                 None None ;;
    mret ()) ;;
  logger_info "S3 credentials set in DuckDB".

Definition install_and_load_extensions : M unit :=
  let extensions := ["httpfs"; "aws"] in
  for_each extensions (λ ext,
    conn_install_extension ext ;;
    conn_load_extension ext) ;;
  logger_info "Required extensions installed and loaded".

(** The dict literal [aws_config], in insertion order. *)
Definition aws_config (aws_creds : ReadOnlyCredentials)
    : list (string * option string) :=
  [ ("s3_access_key_id", Some (access_key aws_creds));
    ("s3_secret_access_key", Some (secret_key aws_creds));
    ("s3_session_token", token aws_creds);
    ("s3_region", region_name aws) ].

Definition connect_to_s3 : M unit :=
  self ← get_self;
  match _conn self with
  | None =>
      raise (ConnectionError
               "DuckDB connection not established. Call connect() first.")
  | Some _ =>
      of_status (get_caller_identity aws) ;;
      aws_creds ←
        match get_credentials aws with
        | None =>
            raise (AttributeError
              "'NoneType' object has no attribute 'get_frozen_credentials'")
        | Some o => of_outcome o
        end;
      set_s3_credentials (aws_config aws_creds) ;;
      install_and_load_extensions
  end.

(** *** Query execution *)

(** [[desc[0] for desc in result.description]] *)
Definition columns_of (result : Cursor) : list string :=
  map col_name (description result).

Definition execute_query (query : string) (params : option Params)
    : M (list Row) :=
  logger_info ("Executing query: " +:+ query) ;;
  try_except
    (result ← conn_execute query params None;
     let columns := columns_of result in
     rows ← fetchall result;
     let data := map (λ row, dict (zip columns row)) rows in
     logger_info ("Query executed successfully. Returned " +:+
                  pretty (length data) +:+ " rows.") ;;
     mret data)
    "DuckDB error executing query: "
    "Unexpected error executing query: ".

(** Calling a generator function runs none of its body. *)
Definition execute_query_fetch_one (query : string) (params : option Params)
    : M Generator :=
  mret (GenCreated query params).

(** One turn of the [while True] loop: up to the next [yield], or through
    the [break] to the end of the [try] body. *)
Definition fetch_one_turn (columns : list string) (result : Cursor)
    (row_count : nat) : M (option (Row * Generator)) :=
  '(row, result') ← fetchone result;
  match row with
  | None =>
      logger_info ("Query executed successfully. Yielded " +:+
                   pretty row_count +:+ " rows.") ;;
      mret None
  | Some r =>
      mret (Some (dict (zip columns r),
                  GenSuspended columns result' (S row_count)))
  end.

(** [next(gen)]: [Some (row, gen')] when the generator yields [row] and is
    left suspended as [gen'], [None] for [StopIteration]; an exception
    leaves the generator finished.  The body reads [self._conn] when it
    runs, not when the generator was created. *)
Definition next (gen : Generator) : M (option (Row * Generator)) :=
  let duck := "DuckDB error executing query with fetch one: " in
  let other := "Unexpected error executing query with fetch one: " in
  match gen with
  | GenCreated query params =>
      logger_info ("Executing query with fetch one: " +:+ query) ;;
      try_except
        (result ← conn_execute query params None;
         fetch_one_turn (columns_of result) result 0)
        duck other
  | GenSuspended columns result row_count =>
      try_except (fetch_one_turn columns result row_count) duck other
  | GenClosed => mret None
  end.

(** A consumer that pulls rows until the generator stops or raises:
    the rows it saw, and the exception that ended the iteration (if any).
    [None] when [fuel] turns were not enough. *)
Fixpoint drain (fuel : nat) (gen : Generator) (env : Env)
    : option (list Row * option exn * Env) :=
  match fuel with
  | O => None
  | S fuel' =>
      match next gen env with
      | (Raised e, env') => Some ([], Some e, env')
      | (Returned None, env') => Some ([], None, env')
      | (Returned (Some (row, gen')), env') =>
          match drain fuel' gen' env' with
          | Some (rows, out, env'') => Some (row :: rows, out, env'')
          | None => None
          end
      end
  end.

(** *** Interchange operations *)

Definition save_parquet (data : list Row) (complete_file_name : string)
    : M unit :=
  logger_info ("Saving data to Parquet file at '" +:+ complete_file_name
               +:+ "'") ;;
  try_except
    (let df := pd_DataFrame data in
     conn_execute "CREATE TEMPORARY TABLE temp_table AS SELECT * FROM df"
                  None (Some df) ;;
     conn_execute ("COPY temp_table TO '" +:+ complete_file_name +:+ "'")
                  None (Some df) ;;
     conn_execute "DROP TABLE temp_table" None (Some df) ;;
     logger_info ("Data saved to '" +:+ complete_file_name +:+
                  "' successfully."))
    "DuckDB error saving Parquet file: "
    "Unexpected error saving Parquet file: ".

(** The statement [read_file] builds. *)
Definition read_file_query (file_path file_type : string)
    (select_columns filter_conditions : option (list string)) : string :=
  let query :=
    if truthy select_columns then
      let columns := String.concat ", " (default [] select_columns) in
      "SELECT " +:+ columns +:+ " FROM read_" +:+ file_type +:+ "('" +:+
      file_path +:+ "')"
    else
      "SELECT * FROM read_" +:+ file_type +:+ "('" +:+ file_path +:+ "')" in
  if truthy filter_conditions then
    let conditions :=
      String.concat " AND "
        (map (λ condition, "(" +:+ condition +:+ ")")
             (default [] filter_conditions)) in
    query +:+ " WHERE " +:+ conditions
  else query.

Definition read_file (file_path file_type : string)
    (select_columns filter_conditions : option (list string))
    : M (list Row) :=
  if bool_decide (file_type ∉ ["csv"; "parquet"]) then
    raise (ValueError "file_type must be either 'csv' or 'parquet'")
  else
    logger_info ("Reading " +:+ upper file_type +:+ " file from '" +:+
                 file_path +:+ "'") ;;
    try_except
      (let query :=
         read_file_query file_path file_type select_columns
                         filter_conditions in
       result ← execute_query query None;
       logger_info ("Data read from '" +:+ file_path +:+
                    "' successfully. Returned " +:+ pretty (length result)
                    +:+ " rows.") ;;
       mret result)
      ("DuckDB error reading " +:+ upper file_type +:+ " file: ")
      ("Unexpected error reading " +:+ upper file_type +:+ " file: ").

Definition create_table (table_name : string) (data : list Row) : M unit :=
  logger_info ("Creating table '" +:+ table_name +:+ "'") ;;
  try_except
    (match data with
     | [] => raise (ValueError "No data provided to create the table")
     | _ :: _ =>
         let df := pd_DataFrame data in
         let query :=
           "CREATE TABLE " +:+ table_name +:+ " AS SELECT * FROM df" in
         conn_execute query None (Some df) ;;
         logger_info ("Table '" +:+ table_name +:+
                      "' created successfully with " +:+
                      pretty (length data) +:+ " rows")
     end)
    "DuckDB error creating table: "
    "Unexpected error creating table: ".

Definition save_table_as_parquet (table_name file_path file_name : string)
    : M unit :=
  let full_path := os_path_join file_path (file_name +:+ ".parquet") in
  logger_info ("Saving table '" +:+ table_name +:+ "' as Parquet file: "
               +:+ full_path) ;;
  try_except
    (let query :=
       "COPY (SELECT * FROM " +:+ table_name +:+ ") TO '" +:+ full_path
       +:+ "' (FORMAT PARQUET)" in
     conn_execute query None None ;;
     logger_info ("Table '" +:+ table_name +:+
                  "' successfully saved as Parquet file: " +:+ full_path))
    "DuckDB error saving table as Parquet: "
    "Unexpected error saving table as Parquet: ".

End Wrapper.

(** ** Notions the properties are stated with *)

(** The connections of a trace that were opened and not closed since. *)
Definition live_handles (tr : list EngineCall) : gset Handle :=
  fold_left (λ s c,
    match c with
    | DuckdbConnect _ (Some h) => {[h]} ∪ s
    | ConnClose h => s ∖ {[h]}
    | _ => s
    end) tr ∅.

(** Every row of a cursor has one value per column of its description. *)
Definition cursor_wf (result : Cursor) : Prop :=
  Forall (λ row : list pyval, length row = length (description result))
         (pending result).

(** What the consumer of a generator observes, against what the eager
    call returns. *)
Definition same_rows (eager : Outcome (list Row))
    (seen : list Row) (ended : option exn) : Prop :=
  match eager with
  | Returned data => seen = data ∧ ended = None
  | Raised e => ended = Some e
  end.

(** The computation [m], run in [env], raises [e] without calling the
    engine and without touching the wrapper object. *)
Definition raises_without_engine {A} (m : M A) (env : Env) (e : exn) : Prop :=
  ∃ env', m env = (Raised e, env') ∧ calls env' = calls env ∧
          this env' = this env.

(** The rows of a cursor as mappings keyed by its column names. *)
Definition rows_of (result : Cursor) : list Row :=
  map (λ row, dict (zip (columns_of result) row)) (pending result).

(** What the eager path makes of the engine's answer to [execute]. *)
Definition eager_outcome (answer : Outcome Cursor) : Outcome (list Row) :=
  match answer with
  | Raised e => Raised e
  | Returned result =>
      match failure result with
      | Some e => Raised e
      | None => Returned (rows_of result)
      end
  end.

(** [list(execute_query_fetch_one(query, params))], as seen by a consumer
    with [fuel] turns to spend. *)
Definition consume (eng : Engine) (fuel : nat) (query : string)
    (params : option Params) (env : Env)
    : option (list Row * option exn * Env) :=
  match execute_query_fetch_one query params env with
  | (Returned gen, env') => drain eng fuel gen env'
  | (Raised e, env') => Some ([], Some e, env')
  end.

(** An engine call that neither opens nor closes a connection. *)
Definition is_query_call (c : EngineCall) : bool :=
  match c with
  | DuckdbConnect _ _ | ConnClose _ => false
  | _ => true
  end.

(** From [env] to [env'] the wrapper object is the same, and the engine
    trace and the log only grew, the trace by calls that neither open nor
    close a connection. *)
Definition only_appends (env env' : Env) : Prop :=
  this env' = this env ∧
  (∃ added, calls env' = calls env ++ added ∧
            Forall (λ c, is_query_call c = true) added) ∧
  (∃ lines, logs env' = logs env ++ lines).

Definition keeps_connection {A} (m : M A) : Prop :=
  ∀ env, only_appends env (m env).2.

(** The argument [create_duckdb_connection] passes to [duckdb.connect]:
    the database file when it is set and not empty, nothing otherwise. *)
Definition database_of (self : DuckDBWrapper) : option string :=
  match db_file self with
  | Some f => if bool_decide (f ≠ "") then Some f else None
  | None => None
  end.

(** The statement [set_s3_credentials] sends for one configuration key. *)
Definition set_call (h : Handle) (key value : string) : EngineCall :=
  ConnExecute h ("SET " +:+ key +:+ "='" +:+ value +:+ "'") None None.

(** The calls of a complete [connect_to_s3], in the order the code makes
    them: the four keys of [aws_config], then install and load of each
    extension. *)
Definition s3_calls (h : Handle) (aws : Boto3) (creds : ReadOnlyCredentials)
    : list EngineCall :=
  [ set_call h "s3_access_key_id" (access_key creds);
    set_call h "s3_secret_access_key" (secret_key creds);
    set_call h "s3_session_token" (format_opt (token creds));
    set_call h "s3_region" (format_opt (region_name aws));
    ConnInstallExtension h "httpfs"; ConnLoadExtension h "httpfs";
    ConnInstallExtension h "aws"; ConnLoadExtension h "aws" ].

(** What the engine answers when [c] is called after the trace [tr]: the
    error it raises, or [None] when it accepts. *)
Definition refusal (eng : Engine) (tr : list EngineCall) (c : EngineCall)
    : option exn :=
  match c with
  | ConnExecute h query params df =>
      match duckdb_execute eng tr h query params df with
      | Raised e => Some e
      | Returned _ => None
      end
  | ConnInstallExtension h ext => duckdb_install_extension eng tr h ext
  | ConnLoadExtension h ext => duckdb_load_extension eng tr h ext
  | DuckdbConnect database _ => duckdb_connect eng tr database
  | ConnClose _ | CursorFetchall | CursorFetchone => None
  end.

(** Making the calls [todo] one after the other from the trace [tr], up to
    and including the first one the engine refuses: the calls made, and
    the error of the refused one (if any). *)
Fixpoint calls_until_refused (eng : Engine) (tr : list EngineCall)
    (todo : list EngineCall) : list EngineCall * option exn :=
  match todo with
  | [] => ([], None)
  | c :: rest =>
      match refusal eng tr c with
      | Some e => ([c], Some e)
      | None =>
          let '(made, out) := calls_until_refused eng (tr ++ [c]) rest in
          (c :: made, out)
      end
  end.

(** ** Sample collaborators *)

Definition sample_cursor : Cursor :=
  {| description := [ {| col_name := "a"; type_code := "INTEGER" |};
                      {| col_name := "b"; type_code := "VARCHAR" |} ];
     pending := [ [PyInt 2; PyStr "x"]; [PyInt 3; PyStr "y"] ];
     failure := None |}.

(** An engine that accepts everything and answers every statement with
    [sample_cursor]. *)
Definition sample_engine : Engine :=
  {| duckdb_connect := λ _ _, None;
     duckdb_execute := λ _ _ _ _ _, Returned sample_cursor;
     duckdb_install_extension := λ _ _ _, None;
     duckdb_load_extension := λ _ _ _, None |}.

(** An engine whose [COPY] statements fail. *)
Definition copy_failing_engine : Engine :=
  {| duckdb_connect := λ _ _, None;
     duckdb_execute := λ _ _ query _ _,
       if String.prefix "COPY" query
       then Raised (DuckDBError "IO Error: cannot open file")
       else Returned sample_cursor;
     duckdb_install_extension := λ _ _ _, None;
     duckdb_load_extension := λ _ _ _, None |}.

(** An engine that rejects every statement. *)
Definition rejecting_engine : Engine :=
  {| duckdb_connect := λ _ _, None;
     duckdb_execute := λ _ _ _ _ _,
       Raised (DuckDBError "Parser Error: syntax error");
     duckdb_install_extension := λ _ _ _, None;
     duckdb_load_extension := λ _ _ _, None |}.

Definition sample_credentials : ReadOnlyCredentials :=
  {| access_key := "AKIA"; secret_key := "secret"; token := Some "token" |}.

Definition sample_boto3 : Boto3 :=
  {| get_caller_identity := None;
     get_credentials := Some (Returned sample_credentials);
     region_name := Some "eu-west-1" |}.

(** An identity service without usable credentials. *)
Definition unauthenticated_boto3 : Boto3 :=
  {| get_caller_identity :=
       Some (OtherException "NoCredentialsError" "Unable to locate credentials");
     get_credentials := None;
     region_name := None |}.

(** An identity service that confirms the identity and then fails to hand
    out credentials. *)
Definition expired_boto3 : Boto3 :=
  {| get_caller_identity := None;
     get_credentials :=
       Some (Raised (OtherException "CredentialRetrievalError"
                                    "Error when retrieving credentials"));
     region_name := Some "eu-west-1" |}.

(** A wrapper that was never connected, in an otherwise empty world. *)
Definition fresh_env : Env := __init__ None [] [].

(** A wrapper holding the open connection [0]. *)
Definition open_env : Env :=
  {| this := {| _conn := Some 0; db_file := None |};
     calls := [DuckdbConnect None (Some 0)];
     logs := [(INFO, "In-memory DuckDB connection established")] |}.

(** A dataset of one row. *)
Definition sample_row : Row := dict [("a", PyInt 2); ("b", PyStr "x")].

(** A scope body that fails after the connection was opened. *)
Definition failing_body : M unit :=
  raise (OtherException "RuntimeError" "boom").

(** An engine that cannot open a database. *)
Definition refusing_engine : Engine :=
  {| duckdb_connect := λ _ _,
       Some (DuckDBError "IO Error: cannot open database");
     duckdb_execute := λ _ _ _ _ _, Returned sample_cursor;
     duckdb_install_extension := λ _ _ _, None;
     duckdb_load_extension := λ _ _ _, None |}.

(** An engine that cannot download extensions. *)
Definition offline_engine : Engine :=
  {| duckdb_connect := λ _ _, None;
     duckdb_execute := λ _ _ _ _ _, Returned sample_cursor;
     duckdb_install_extension := λ _ _ _,
       Some (DuckDBError "IO Error: failed to download extension");
     duckdb_load_extension := λ _ _ _, None |}.

(** A cursor that fails after its two rows. *)
Definition failing_cursor : Cursor :=
  {| description := description sample_cursor;
     pending := pending sample_cursor;
     failure := Some (DuckDBError "Conversion Error: bad value") |}.

(** An engine whose cursors fail while they are read. *)
Definition flaky_engine : Engine :=
  {| duckdb_connect := λ _ _, None;
     duckdb_execute := λ _ _ _ _ _, Returned failing_cursor;
     duckdb_install_extension := λ _ _ _, None;
     duckdb_load_extension := λ _ _ _, None |}.

(** Long-term keys: no session token, and a session without a region. *)
Definition keys_only_boto3 : Boto3 :=
  {| get_caller_identity := None;
     get_credentials :=
       Some (Returned {| access_key := "AKIA"; secret_key := "secret";
                         token := None |});
     region_name := None |}.

(** * Properties *)

Lemma append_assoc (a b c : string) : (a +:+ b) +:+ c = a +:+ (b +:+ c).
Proof.
  induction a as [|x a IH]; [reflexivity|].
  change (String x ((a +:+ b) +:+ c) = String x (a +:+ (b +:+ c))).
  by f_equal.
Qed.

Lemma append_empty_r (a : string) : a +:+ "" = a.
Proof.
  induction a as [|x a IH]; [reflexivity|].
  change (String x (a +:+ "") = String x a). by f_equal.
Qed.

Lemma bind_run {A B} (m : M A) (f : A → M B) (env : Env) :
  (m ≫= f) env =
  match m env with
  | (Returned a, env') => f a env'
  | (Raised e, env') => (Raised e, env')
  end.
Proof. reflexivity. Qed.

Lemma try_except_run {A} (body : M A) (duck other : string) (env : Env) :
  try_except body duck other env =
  match body env with
  | (Returned a, env') => (Returned a, env')
  | (Raised e, env') =>
      (Raised e,
       {| this := this env'; calls := calls env';
          logs := logs env' ++
                  [(ERROR, (if is_duckdb_Error e then duck else other)
                           +:+ str e)] |})
  end.
Proof. unfold try_except. destruct (body env) as [[a|e] env']; reflexivity. Qed.

(** Runs the monadic plumbing of a goal. *)
Ltac run :=
  repeat (rewrite ?bind_run, ?try_except_run;
          unfold logger_info, logger_error, log_record, record_call,
                 get_self, get_calls, set_conn, of_outcome, of_status,
                 raise, mret, M_ret;
          simpl).

Section Properties.

Variable eng : Engine.
Variable aws : Boto3.

Implicit Types (env : Env) (h : Handle) (query : string)
  (params : option Params) (df : option DataFrame).

(** *** Engine calls, closed and open *)

Lemma conn_attr_closed env attr :
  _conn (this env) = None →
  conn_attr attr env =
  (Raised (AttributeError
             ("'NoneType' object has no attribute '" +:+ attr +:+ "'")), env).
Proof. intros H. unfold conn_attr. rewrite bind_run. simpl. by rewrite H. Qed.

Lemma conn_attr_open env h attr :
  _conn (this env) = Some h → conn_attr attr env = (Returned h, env).
Proof. intros H. unfold conn_attr. rewrite bind_run. simpl. by rewrite H. Qed.

Lemma conn_execute_closed env query params df :
  _conn (this env) = None →
  conn_execute eng query params df env =
  (Raised (AttributeError "'NoneType' object has no attribute 'execute'"),
   env).
Proof.
  intros H. unfold conn_execute. rewrite bind_run.
  by rewrite (conn_attr_closed _ _ H).
Qed.

Lemma conn_execute_open env h query params df :
  _conn (this env) = Some h →
  conn_execute eng query params df env =
  (duckdb_execute eng (calls env) h query params df,
   {| this := this env;
      calls := calls env ++ [ConnExecute h query params df];
      logs := logs env |}).
Proof.
  intros H. unfold conn_execute. rewrite bind_run.
  by rewrite (conn_attr_open _ _ _ H).
Qed.

(** *** Raising before the engine is reached *)

Lemma raises_after_info {A} (m : M A) env e msg :
  raises_without_engine m (logger_info msg env).2 e →
  raises_without_engine (logger_info msg ;; m) env e.
Proof.
  intros (env' & Hrun & Hcalls & Hthis). exists env'.
  rewrite bind_run. simpl in *. auto.
Qed.

Lemma raises_in_try {A} (body : M A) env e duck other :
  raises_without_engine body env e →
  raises_without_engine (try_except body duck other) env e.
Proof.
  intros (env' & Hrun & Hcalls & Hthis).
  unfold raises_without_engine. rewrite try_except_run, Hrun. eauto.
Qed.

Lemma raises_conn_execute env query params df :
  _conn (this env) = None →
  raises_without_engine (conn_execute eng query params df) env
    (AttributeError "'NoneType' object has no attribute 'execute'").
Proof. intros H. exists env. by rewrite conn_execute_closed. Qed.

Lemma raises_bind {A B} (m : M A) (f : A → M B) env e :
  raises_without_engine m env e → raises_without_engine (m ≫= f) env e.
Proof.
  intros (env' & Hrun & Hcalls & Hthis). exists env'.
  by rewrite bind_run, Hrun.
Qed.

Lemma execute_query_closed env query params :
  _conn (this env) = None →
  raises_without_engine (execute_query eng query params) env
    (AttributeError "'NoneType' object has no attribute 'execute'").
Proof.
  intros H. apply raises_after_info, raises_in_try, raises_bind.
  by apply raises_conn_execute.
Qed.

(** C1 (the code departs from the claim): on a wrapper whose connection
    is not open, each query-dependent operation raises [AttributeError]
    (the failed attribute lookup on [None]), not a connectivity error;
    the streaming variant raises it at the first [next].  None of them
    reaches the engine.  Only [connect_to_s3] checks the connection and
    raises [ConnectionError]. *)
Theorem closed_connection_raises_AttributeError env :
  _conn (this env) = None →
  let e := AttributeError "'NoneType' object has no attribute 'execute'" in
  (∀ query params,
     raises_without_engine (execute_query eng query params) env e) ∧
  (∀ query params,
     raises_without_engine
       (execute_query_fetch_one query params ≫= next eng) env e) ∧
  (∀ file_path file_type select_columns filter_conditions,
     file_type ∈ ["csv"; "parquet"] →
     raises_without_engine
       (read_file eng file_path file_type select_columns filter_conditions)
       env e) ∧
  (∀ table_name row data,
     raises_without_engine (create_table eng table_name (row :: data))
       env e) ∧
  (∀ data complete_file_name,
     raises_without_engine (save_parquet eng data complete_file_name)
       env e) ∧
  (∀ table_name file_path file_name,
     raises_without_engine
       (save_table_as_parquet eng table_name file_path file_name) env e) ∧
  connect_to_s3 eng aws env =
    (Raised (ConnectionError
               "DuckDB connection not established. Call connect() first."),
     env).
Proof.
  intros H e. repeat split.
  - intros. by apply execute_query_closed.
  - intros.
    change (raises_without_engine (next eng (GenCreated query params)) env e).
    apply raises_after_info, raises_in_try, raises_bind.
    by apply raises_conn_execute.
  - intros ? ? ? ? Hin. unfold read_file.
    rewrite bool_decide_eq_false_2; [|by intros Hn; apply Hn].
    apply raises_after_info, raises_in_try, raises_bind.
    by apply execute_query_closed.
  - intros. apply raises_after_info, raises_in_try, raises_bind.
    by apply raises_conn_execute.
  - intros. apply raises_after_info, raises_in_try, raises_bind.
    by apply raises_conn_execute.
  - intros. apply raises_after_info, raises_in_try, raises_bind.
    by apply raises_conn_execute.
  - unfold connect_to_s3. rewrite bind_run. simpl. by rewrite H.
Qed.

(** C6: a file type other than ["csv"] and ["parquet"] makes [read_file]
    raise [ValueError] at once, whatever the other arguments and whatever
    the state of the connection: the environment (wrapper, engine trace,
    log) is exactly as before. *)
Theorem read_file_rejects_unknown_file_type env file_path file_type
    select_columns filter_conditions :
  file_type ∉ ["csv"; "parquet"] →
  read_file eng file_path file_type select_columns filter_conditions env =
  (Raised (ValueError "file_type must be either 'csv' or 'parquet'"), env).
Proof.
  intros Hft. unfold read_file. by rewrite bool_decide_eq_true_2.
Qed.

(** C7: [create_table] with an empty dataset raises [ValueError] without
    calling the engine; with a non-empty dataset and an open connection
    its one engine call is [CREATE TABLE <table_name> AS SELECT * FROM df],
    the name spliced in unchanged and [df] being the frame built from the
    dataset, and it succeeds exactly when the engine accepts that
    statement. *)
Theorem create_table_requires_data env table_name :
  raises_without_engine (create_table eng table_name []) env
    (ValueError "No data provided to create the table") ∧
  ∀ h row data,
    _conn (this env) = Some h →
    let query := "CREATE TABLE " +:+ table_name +:+ " AS SELECT * FROM df" in
    let df := Some (pd_DataFrame (row :: data)) in
    calls (create_table eng table_name (row :: data) env).2 =
      calls env ++ [ConnExecute h query None df] ∧
    (create_table eng table_name (row :: data) env).1 =
      match duckdb_execute eng (calls env) h query None df with
      | Returned _ => Returned ()
      | Raised e => Raised e
      end.
Proof.
  split.
  - apply raises_after_info, raises_in_try. eexists. by run.
  - intros h row data Hopen query df. unfold create_table. run.
    rewrite (conn_execute_open _ h); [|exact Hopen]. simpl.
    fold query df.
    destruct (duckdb_execute eng (calls env) h query None df); by run.
Qed.

(** C10: calling [execute_query_fetch_one] only builds the generator:
    the environment (wrapper, engine trace, log) is unchanged and nothing
    is raised, whether or not the connection is open and whatever the
    statement.  The work happens at the first [next]: there a missing
    connection raises [AttributeError], and on an open connection the
    statement reaches the engine, whose rejection is raised. *)
Theorem execute_query_fetch_one_is_lazy env query params :
  execute_query_fetch_one query params env =
    (Returned (GenCreated query params), env) ∧
  (_conn (this env) = None →
   raises_without_engine (next eng (GenCreated query params)) env
     (AttributeError "'NoneType' object has no attribute 'execute'")) ∧
  (∀ h e,
     _conn (this env) = Some h →
     duckdb_execute eng (calls env) h query params None = Raised e →
     ∃ env', next eng (GenCreated query params) env = (Raised e, env') ∧
             calls env' = calls env ++ [ConnExecute h query params None]) ∧
  (∀ h result,
     _conn (this env) = Some h →
     duckdb_execute eng (calls env) h query params None = Returned result →
     calls (next eng (GenCreated query params) env).2 =
       calls env ++ [ConnExecute h query params None; CursorFetchone]).
Proof.
  split; [reflexivity|]. split; [|split].
  - intros H. apply raises_after_info, raises_in_try, raises_bind.
    by apply raises_conn_execute.
  - intros h e Hopen Hrej. unfold next. run.
    rewrite (conn_execute_open _ h); [|exact Hopen]. simpl.
    rewrite Hrej. eexists. split; reflexivity.
  - intros h result Hopen Hok. unfold next. run.
    rewrite (conn_execute_open _ h); [|exact Hopen]. simpl.
    rewrite Hok. unfold fetch_one_turn, fetchone. run.
    destruct (pending result) as [|row rest]; run.
    + destruct (failure result); run; by rewrite <- app_assoc.
    + by rewrite <- app_assoc.
Qed.

(** The statements of [save_parquet]: on an open connection it sends the
    engine, in this order, [CREATE TEMPORARY TABLE temp_table AS SELECT * FROM df] (with
    [df] the frame built from the dataset), [COPY temp_table TO '<name>']
    and [DROP TABLE temp_table].  When the engine accepts the first two
    the trace grows by exactly these three calls and the outcome is that
    of the [DROP]; when the [COPY] fails its error is raised and the
    trace ends with the [COPY]: the temporary table is not dropped.  The
    [COPY] statement names no format; the engine chooses it from the file
    name. *)
Theorem save_parquet_sequence env h data complete_file_name :
  _conn (this env) = Some h →
  let df := Some (pd_DataFrame data) in
  let create :=
    "CREATE TEMPORARY TABLE temp_table AS SELECT * FROM df" in
  let copy := "COPY temp_table TO '" +:+ complete_file_name +:+ "'" in
  let drop := "DROP TABLE temp_table" in
  let tr1 := calls env ++ [ConnExecute h create None df] in
  let tr2 := tr1 ++ [ConnExecute h copy None df] in
  let tr3 := tr2 ++ [ConnExecute h drop None df] in
  ∀ created,
    duckdb_execute eng (calls env) h create None df = Returned created →
    (∀ copied,
       duckdb_execute eng tr1 h copy None df = Returned copied →
       calls (save_parquet eng data complete_file_name env).2 = tr3 ∧
       (save_parquet eng data complete_file_name env).1 =
         match duckdb_execute eng tr2 h drop None df with
         | Returned _ => Returned ()
         | Raised e => Raised e
         end) ∧
    (∀ e,
       duckdb_execute eng tr1 h copy None df = Raised e →
       calls (save_parquet eng data complete_file_name env).2 = tr2 ∧
       (save_parquet eng data complete_file_name env).1 = Raised e).
Proof.
  intros Hopen df create copy drop tr1 tr2 tr3 created Hcreate.
  unfold save_parquet. run.
  rewrite (conn_execute_open _ h); [|exact Hopen]. simpl.
  fold df create. rewrite Hcreate. run.
  rewrite (conn_execute_open _ h); [|exact Hopen]. simpl.
  fold df copy tr1.
  split.
  - intros copied Hcopy. rewrite Hcopy. run.
    rewrite (conn_execute_open _ h); [|exact Hopen]. simpl.
    fold df drop tr2.
    destruct (duckdb_execute eng tr2 h drop None df); by run.
  - intros e Hcopy. rewrite Hcopy. by run.
Qed.

(** *** The eager path on an open connection *)

Lemma execute_query_open env h query params :
  _conn (this env) = Some h →
  let answer := duckdb_execute eng (calls env) h query params None in
  (execute_query eng query params env).1 = eager_outcome answer ∧
  calls (execute_query eng query params env).2 =
    calls env ++ ConnExecute h query params None ::
      match answer with Returned _ => [CursorFetchall] | Raised _ => [] end ∧
  this (execute_query eng query params env).2 = this env.
Proof.
  intros Hopen answer. unfold execute_query. run.
  rewrite (conn_execute_open _ h); [|exact Hopen]. simpl. fold answer.
  destruct answer as [result|e]; run; [|done].
  unfold fetchall. run. unfold eager_outcome, rows_of.
  destruct (failure result); run; by rewrite <- app_assoc.
Qed.

(** C5: the statement [read_file] builds is
    [SELECT <columns> FROM read_<file_type>('<file_path>')], where
    <columns> is the given columns joined by [", "], or [*] when none (or
    an empty list) is given, followed, when filter conditions are given
    (and the list is not empty), by [ WHERE ] and the conditions, each in
    parentheses, joined by [ AND ].  The example of the specification
    builds [SELECT a, b FROM read_csv('path') WHERE (a > 1)].  On an open
    connection and for a recognised file type this statement, without
    parameters, is what reaches the engine, and [read_file] returns what
    the eager path makes of the answer. *)
Theorem read_file_statement file_path file_type select_columns
    filter_conditions :
  let columns :=
    match select_columns with
    | Some (c :: cs) => String.concat ", " (c :: cs)
    | _ => "*"
    end in
  let where_clause :=
    match filter_conditions with
    | Some (c :: cs) =>
        " WHERE " +:+
        String.concat " AND "
          (map (λ condition, "(" +:+ condition +:+ ")") (c :: cs))
    | _ => ""
    end in
  let query :=
    read_file_query file_path file_type select_columns filter_conditions in
  query = "SELECT " +:+ columns +:+ " FROM read_" +:+ file_type +:+ "('"
          +:+ file_path +:+ "')" +:+ where_clause ∧
  read_file_query "path" "csv" (Some ["a"; "b"]) (Some ["a > 1"]) =
    "SELECT a, b FROM read_csv('path') WHERE (a > 1)" ∧
  ∀ env h,
    file_type ∈ ["csv"; "parquet"] →
    _conn (this env) = Some h →
    let answer := duckdb_execute eng (calls env) h query None None in
    (read_file eng file_path file_type select_columns filter_conditions
       env).1 = eager_outcome answer ∧
    calls (read_file eng file_path file_type select_columns
             filter_conditions env).2 =
      calls env ++ ConnExecute h query None None ::
        match answer with Returned _ => [CursorFetchall] | Raised _ => [] end.
Proof.
  intros columns where_clause query. split; [|split; [reflexivity|]].
  - unfold query, read_file_query, columns, where_clause.
    destruct select_columns as [[|c cs]|], filter_conditions as [[|d ds]|];
      simpl; rewrite ?append_assoc; reflexivity.
  - intros env h Hft Hopen answer. unfold read_file.
    rewrite bool_decide_eq_false_2; [|by intros Hn; apply Hn].
    fold query. run.
    set (env1 := {| this := this env; calls := calls env;
                    logs := logs env ++ _ |}).
    destruct (execute_query_open env1 h query None Hopen)
      as (Hout & Hcalls & _).
    simpl in Hout, Hcalls. fold answer in Hout, Hcalls.
    destruct (execute_query eng query None env1) as [[data|e] env2];
      simpl in *; by rewrite <- Hout, Hcalls.
Qed.

(** C4: on an open connection, when the identity check raises, or when
    it passes and the credentials are missing or fetching them raises,
    [connect_to_s3] raises that error and the environment is exactly as
    before: no [SET] statement, no [install_extension] and no
    [load_extension] reached the engine. *)
Theorem connect_to_s3_fails_before_configuring env h :
  _conn (this env) = Some h →
  (∀ e, get_caller_identity aws = Some e →
        connect_to_s3 eng aws env = (Raised e, env)) ∧
  (∀ e, get_caller_identity aws = None →
        get_credentials aws = Some (Raised e) →
        connect_to_s3 eng aws env = (Raised e, env)) ∧
  (get_caller_identity aws = None →
   get_credentials aws = None →
   connect_to_s3 eng aws env =
     (Raised (AttributeError
        "'NoneType' object has no attribute 'get_frozen_credentials'"),
      env)).
Proof.
  intros Hopen. unfold connect_to_s3. rewrite bind_run. simpl.
  rewrite Hopen. repeat split.
  - intros e Hid. rewrite Hid. by run.
  - intros e Hid Hcred. rewrite Hid, Hcred. by run.
  - intros Hid Hcred. rewrite Hid, Hcred. by run.
Qed.

(** *** Closing *)

Lemma close_closed env :
  _conn (this env) = None → close env = (Returned (), env).
Proof. intros H. unfold close. rewrite bind_run. simpl. by rewrite H. Qed.

Lemma close_open env h :
  _conn (this env) = Some h →
  close env =
  (Returned (),
   {| this := {| _conn := None; db_file := db_file (this env) |};
      calls := calls env ++ [ConnClose h];
      logs := logs env ++ [(INFO, "Database connection closed")] |}).
Proof.
  intros H. unfold close. rewrite bind_run. simpl. rewrite H.
  unfold conn_close. run. by rewrite (conn_attr_open _ h).
Qed.

Lemma close_returns env :
  (close env).1 = Returned () ∧ _conn (this (close env).2) = None.
Proof.
  destruct (_conn (this env)) as [h|] eqn:H.
  - by rewrite (close_open _ _ H).
  - by rewrite (close_closed _ H).
Qed.

Lemma live_handles_snoc tr c :
  live_handles (tr ++ [c]) =
  match c with
  | DuckdbConnect _ (Some h) => {[h]} ∪ live_handles tr
  | ConnClose h => live_handles tr ∖ {[h]}
  | _ => live_handles tr
  end.
Proof. unfold live_handles. by rewrite fold_left_app. Qed.

(** C8: [close] on a wrapper without a connection changes nothing;
    [close] always returns and leaves the wrapper without a connection, so
    a second [close] changes nothing.  Once [__enter__] has succeeded,
    [with] ends with the wrapper closed whether the body returned or
    raised: the connection the wrapper held when the body ended was closed
    as the last engine call and is not live any more, a further [close]
    changes nothing, and the outcome of the body (its value or its
    exception) is the outcome of the whole statement. *)
Theorem close_is_idempotent_and_scope_closes :
  (∀ env, _conn (this env) = None → close env = (Returned (), env)) ∧
  (∀ env, (close env).1 = Returned () ∧
          _conn (this (close env).2) = None ∧
          close (close env).2 = (Returned (), (close env).2)) ∧
  (∀ A (body : M A) env,
     (__enter__ eng env).1 = Returned () →
     let entered := (__enter__ eng env).2 in
     let left := with_scope eng body env in
     left.1 = (body entered).1 ∧
     _conn (this left.2) = None ∧
     close left.2 = (Returned (), left.2) ∧
     ∀ h, _conn (this (body entered).2) = Some h →
          calls left.2 = calls (body entered).2 ++ [ConnClose h] ∧
          h ∉ live_handles (calls left.2)).
Proof.
  split; [exact close_closed|]. split.
  - intros env. destruct (close_returns env) as [Hret Hnone].
    repeat split; [done..|]. by apply close_closed.
  - intros A body env Henter entered left.
    assert (Hleft : left = ((body entered).1, (close (body entered).2).2)).
    { unfold left, with_scope, entered.
      destruct (__enter__ eng env) as [[[]|e] env1]; simpl in *; [|done].
      unfold __exit__.
      destruct (body env1) as [[a|e] env2]; simpl;
        destruct (close_returns env2) as [Hret _];
        destruct (close env2) as [[[]|e'] env3]; simpl in *; done. }
    rewrite Hleft. simpl.
    destruct (close_returns (body entered).2) as [_ Hnone].
    split; [done|]. split; [done|]. split; [by apply close_closed|].
    intros h Hheld. rewrite (close_open _ _ Hheld). simpl.
    split; [done|]. rewrite live_handles_snoc.
    apply not_elem_of_difference. right. by apply elem_of_singleton.
Qed.

(** *** Row mappings *)

Lemma dom_fold_insert (items : list (string * pyval)) (acc : Row) :
  dom (fold_left (λ d kv, <[kv.1 := kv.2]> d) items acc)
  =@{gset string} dom acc ∪ list_to_set items.*1.
Proof.
  revert acc. induction items as [|[k v] items IH]; intros acc; simpl.
  - by rewrite (right_id_L ∅ (∪)).
  - rewrite IH, dom_insert_L.
    by rewrite (comm_L (∪) {[k]} (dom acc)), (assoc_L (∪)).
Qed.

Lemma dom_dict_zip (columns : list string) (row : list pyval) :
  length row = length columns →
  dom (dict (zip columns row)) =@{gset string} list_to_set columns.
Proof.
  intros Hlen. unfold dict. rewrite dom_fold_insert, dom_empty_L.
  rewrite fst_zip by lia. by rewrite (left_id_L ∅ (∪)).
Qed.

Lemma rows_of_dom result :
  cursor_wf result →
  Forall (λ row : Row, dom row =@{gset string}
                       list_to_set (columns_of result))
         (rows_of result).
Proof.
  unfold cursor_wf, rows_of. intros Hwf. apply Forall_fmap.
  eapply Forall_impl; [exact Hwf|]. intros row Hlen. simpl.
  apply dom_dict_zip. unfold columns_of. by rewrite length_map.
Qed.

(** C2: when the engine answers a statement with a cursor whose rows
    have one value per described column and whose fetch does not fail,
    [execute_query] returns one mapping per row, in order, and the key set
    of every mapping is the set of the column names of the cursor's
    description, read once before the rows are fetched. *)
Theorem execute_query_rows_share_columns env h query params result :
  _conn (this env) = Some h →
  duckdb_execute eng (calls env) h query params None = Returned result →
  failure result = None →
  cursor_wf result →
  ∃ data env',
    execute_query eng query params env = (Returned data, env') ∧
    length data = length (pending result) ∧
    Forall (λ row : Row, dom row =@{gset string}
                         list_to_set (col_name <$> description result))
           data.
Proof.
  intros Hopen Hanswer Hfetch Hwf.
  destruct (execute_query_open env h query params Hopen) as (Hout & _).
  rewrite Hanswer in Hout. unfold eager_outcome in Hout.
  rewrite Hfetch in Hout.
  destruct (execute_query eng query params env) as [out env'].
  simpl in Hout. subst out. exists (rows_of result), env'.
  split; [done|]. split.
  - unfold rows_of. by rewrite length_map.
  - by apply rows_of_dom.
Qed.

(** *** The streaming path *)

Lemma next_created_open env h query params result :
  _conn (this env) = Some h →
  duckdb_execute eng (calls env) h query params None = Returned result →
  next eng (GenCreated query params) env =
  next eng (GenSuspended (columns_of result) result 0)
    {| this := this env;
       calls := calls env ++ [ConnExecute h query params None];
       logs := logs env ++
               [(INFO, "Executing query with fetch one: " +:+ query)] |}.
Proof.
  intros Hopen Hanswer. unfold next. run.
  rewrite (conn_execute_open _ h); [|exact Hopen]. simpl.
  by rewrite Hanswer.
Qed.

Local Arguments drain : simpl never.

Lemma drain_step fuel gen env :
  drain eng (S fuel) gen env =
  match next eng gen env with
  | (Raised e, env') => Some ([], Some e, env')
  | (Returned None, env') => Some ([], None, env')
  | (Returned (Some (row, gen')), env') =>
      match drain eng fuel gen' env' with
      | Some (rows, out, env'') => Some (row :: rows, out, env'')
      | None => None
      end
  end.
Proof. reflexivity. Qed.

(** Draining a suspended generator shows the consumer every pending row
    of the cursor, in order, and then the cursor's failure, if any. *)
Lemma drain_suspended rows :
  ∀ desc fail columns row_count env,
  ∃ env',
    drain eng (S (length rows))
      (GenSuspended columns
         {| description := desc; pending := rows; failure := fail |}
         row_count) env =
    Some (map (λ row, dict (zip columns row)) rows, fail, env').
Proof.
  induction rows as [|row rest IH]; intros desc fail columns row_count env.
  - rewrite drain_step. unfold next, fetch_one_turn, fetchone. run.
    destruct fail as [e|]; run; eauto.
  - rewrite drain_step. unfold next, fetch_one_turn, fetchone. run.
    edestruct (IH desc fail columns (S row_count)) as [env' Hrest].
    rewrite Hrest. eauto.
Qed.

(** More fuel does not change what a finished consumer saw. *)
Lemma drain_more_fuel fuel :
  ∀ gen env seen, drain eng fuel gen env = Some seen →
                  drain eng (S fuel) gen env = Some seen.
Proof.
  induction fuel as [|fuel IH]; intros gen env seen Hrun; [done|].
  rewrite drain_step in Hrun. rewrite drain_step.
  destruct (next eng gen env) as [[[[row gen']|]|e] env']; [|done..].
  destruct (drain eng fuel gen' env') as [[[rows out] env'']|] eqn:Hsub;
    [|done].
  by rewrite (IH _ _ _ Hsub).
Qed.

(** C3: a consumer that pulls from the generator of
    [execute_query_fetch_one] until it stops is served: given enough turns
    the iteration ends, and when [execute_query], run from the same state
    on the same statement and parameters, returns a list, the consumer saw
    exactly that list, in that order, and the iteration ended normally;
    when [execute_query] raises, the iteration ended with that
    exception. *)
Theorem streaming_yields_what_eager_returns env query params :
  ∃ fuel seen ended env',
    consume eng fuel query params env = Some (seen, ended, env') ∧
    same_rows (execute_query eng query params env).1 seen ended.
Proof.
  unfold consume. simpl.
  destruct (_conn (this env)) as [h|] eqn:Hconn.
  - destruct (execute_query_open env h query params Hconn) as (Hout & _).
    rewrite Hout.
    destruct (duckdb_execute eng (calls env) h query params None)
      as [result|e] eqn:Hanswer.
    + destruct result as [desc rows fail].
      edestruct (drain_suspended rows desc fail) as [env' Hdrain].
      exists (S (length rows)), (rows_of (Build_Cursor desc rows fail)),
             fail, env'.
      split.
      * rewrite drain_step.
        rewrite (next_created_open _ _ _ _ _ Hconn Hanswer).
        rewrite <- drain_step. exact Hdrain.
      * unfold eager_outcome, same_rows. simpl. by destruct fail.
    + exists 1, [], (Some e). eexists. split; [|done].
      rewrite drain_step. unfold next. run.
      rewrite (conn_execute_open _ h); [|exact Hconn]. simpl.
      by rewrite Hanswer.
  - destruct (execute_query_closed env query params Hconn)
      as (env1 & Heager & _).
    rewrite Heager. exists 1, [], (Some
      (AttributeError "'NoneType' object has no attribute 'execute'")).
    eexists. split; [|done].
    rewrite drain_step. unfold next. run.
    by rewrite conn_execute_closed.
Qed.

(** *** What the query operations leave alone *)

Lemma only_appends_refl env : only_appends env env.
Proof.
  split; [done|]. split.
  - exists []. by rewrite app_nil_r.
  - exists []. by rewrite app_nil_r.
Qed.

Lemma only_appends_trans env1 env2 env3 :
  only_appends env1 env2 → only_appends env2 env3 → only_appends env1 env3.
Proof.
  intros (Hthis1 & (a1 & Hc1 & Hq1) & (l1 & Hl1))
         (Hthis2 & (a2 & Hc2 & Hq2) & (l2 & Hl2)).
  split; [congruence|]. split.
  - exists (a1 ++ a2). split.
    + by rewrite Hc2, Hc1, <- app_assoc.
    + by apply Forall_app.
  - exists (l1 ++ l2). by rewrite Hl2, Hl1, <- app_assoc.
Qed.

Lemma keeps_ret {A} (a : A) : keeps_connection (mret a : M A).
Proof. intros env. apply only_appends_refl. Qed.

Lemma keeps_raise {A} (e : exn) : keeps_connection (raise e : M A).
Proof. intros env. apply only_appends_refl. Qed.

Lemma keeps_bind {A B} (m : M A) (f : A → M B) :
  keeps_connection m → (∀ a, keeps_connection (f a)) →
  keeps_connection (m ≫= f).
Proof.
  intros Hm Hf env. rewrite bind_run. specialize (Hm env).
  destruct (m env) as [[a|e] env1]; simpl in *; [|done].
  eapply only_appends_trans; [exact Hm|]. apply Hf.
Qed.

Lemma keeps_log lvl msg : keeps_connection (log_record lvl msg).
Proof.
  intros env. split; [done|]. split.
  - exists []. by rewrite app_nil_r.
  - by eexists.
Qed.

Lemma keeps_try_except {A} (body : M A) duck other :
  keeps_connection body → keeps_connection (try_except body duck other).
Proof.
  intros Hbody env. rewrite try_except_run. specialize (Hbody env).
  destruct (body env) as [[a|e] env1]; simpl in *; [done|].
  eapply only_appends_trans; [exact Hbody|].
  apply (keeps_log ERROR _ env1).
Qed.

Lemma keeps_query_call {A} (c : EngineCall) (answer : list EngineCall → M A) :
  is_query_call c = true →
  (∀ tr, keeps_connection (answer tr)) →
  keeps_connection (tr ← get_calls; record_call c ;; answer tr).
Proof.
  intros Hc Hanswer env. run.
  eapply only_appends_trans; [|apply Hanswer].
  split; [done|]. split.
  - exists [c]. split; [done|]. by repeat constructor.
  - exists []. by rewrite app_nil_r.
Qed.

Lemma keeps_of_outcome {A} (o : Outcome A) : keeps_connection (of_outcome o).
Proof. intros env. apply only_appends_refl. Qed.

Lemma keeps_of_status o : keeps_connection (of_status o).
Proof. intros env. destruct o; apply only_appends_refl. Qed.

Lemma keeps_conn_attr attr : keeps_connection (conn_attr attr).
Proof.
  intros env. unfold conn_attr. rewrite bind_run. simpl.
  destruct (_conn (this env)); apply only_appends_refl.
Qed.

Lemma keeps_conn_execute query params df :
  keeps_connection (conn_execute eng query params df).
Proof.
  apply keeps_bind; [apply keeps_conn_attr|]. intros h.
  apply (keeps_query_call (ConnExecute h query params df)); [done|].
  intros tr. apply keeps_of_outcome.
Qed.

Lemma keeps_for_each {A} (l : list A) (body : A → M unit) :
  (∀ x, keeps_connection (body x)) → keeps_connection (for_each l body).
Proof.
  intros Hbody. induction l as [|x l IH]; simpl.
  - apply keeps_ret.
  - apply keeps_bind; [apply Hbody|]. intros _. exact IH.
Qed.

Lemma keeps_fetchall result : keeps_connection (fetchall result).
Proof.
  intros env. unfold fetchall. run.
  destruct (failure result); simpl; (split; [done|]; split;
    [exists [CursorFetchall]; split; [done|by repeat constructor]
    |exists []; by rewrite app_nil_r]).
Qed.

Lemma keeps_fetchone result : keeps_connection (fetchone result).
Proof.
  intros env. unfold fetchone. run.
  destruct (pending result); [destruct (failure result)|]; simpl;
    (split; [done|]; split;
      [exists [CursorFetchone]; split; [done|by repeat constructor]
      |exists []; by rewrite app_nil_r]).
Qed.

Lemma keeps_execute_query query params :
  keeps_connection (execute_query eng query params).
Proof.
  apply keeps_bind; [apply keeps_log|]. intros _. apply keeps_try_except.
  apply keeps_bind; [apply keeps_conn_execute|]. intros result.
  apply keeps_bind; [apply keeps_fetchall|]. intros rows.
  apply keeps_bind; [apply keeps_log|]. intros _. apply keeps_ret.
Qed.

Lemma keeps_fetch_one_turn columns result row_count :
  keeps_connection (fetch_one_turn columns result row_count).
Proof.
  apply keeps_bind; [apply keeps_fetchone|]. intros [[row|] result'].
  - apply keeps_ret.
  - apply keeps_bind; [apply keeps_log|]. intros _. apply keeps_ret.
Qed.

Lemma keeps_next gen : keeps_connection (next eng gen).
Proof.
  destruct gen as [query params|columns result row_count|]; simpl.
  - apply keeps_bind; [apply keeps_log|]. intros _. apply keeps_try_except.
    apply keeps_bind; [apply keeps_conn_execute|]. intros result.
    apply keeps_fetch_one_turn.
  - apply keeps_try_except, keeps_fetch_one_turn.
  - apply keeps_ret.
Qed.

Lemma keeps_connect_to_s3 : keeps_connection (connect_to_s3 eng aws).
Proof.
  apply keeps_bind; [intros env; apply only_appends_refl|]. intros self.
  destruct (_conn self); [|apply keeps_raise].
  apply keeps_bind; [apply keeps_of_status|]. intros _.
  apply keeps_bind.
  { destruct (get_credentials aws); [apply keeps_of_outcome|apply keeps_raise]. }
  intros creds. apply keeps_bind.
  - apply keeps_bind; [|intros _; apply keeps_log].
    apply keeps_for_each. intros kv.
    apply keeps_bind; [apply keeps_conn_execute|]. intros _. apply keeps_ret.
  - intros _. apply keeps_bind; [|intros _; apply keeps_log].
    apply keeps_for_each. intros ext. apply keeps_bind.
    + apply keeps_bind; [apply keeps_conn_attr|]. intros h'.
      apply (keeps_query_call (ConnInstallExtension h' ext)); [done|].
      intros tr. apply keeps_of_status.
    + intros _. apply keeps_bind; [apply keeps_conn_attr|]. intros h'.
      apply (keeps_query_call (ConnLoadExtension h' ext)); [done|].
      intros tr. apply keeps_of_status.
Qed.

Lemma live_handles_query_calls added :
  Forall (λ c, is_query_call c = true) added →
  ∀ tr, live_handles (tr ++ added) = live_handles tr.
Proof.
  induction 1 as [|c added Hc _ IH]; intros tr.
  - by rewrite app_nil_r.
  - change (c :: added) with ([c] ++ added).
    rewrite (assoc_L (++)), IH, live_handles_snoc.
    by destruct c as [? []| | | | | |].
Qed.

(** X1: no operation besides [create_duckdb_connection] and [close]
    touches the connection.  Whatever the engine and the identity service
    answer, each of [execute_query], [next] on a generator, [read_file],
    [create_table], [save_parquet], [save_table_as_parquet] and
    [connect_to_s3] leaves the wrapper object as it was, only appends to
    the engine trace and to the log, appends no [connect] and no [close],
    and so leaves the set of live connections unchanged. *)
Theorem operations_keep_the_connection :
  (∀ query params, keeps_connection (execute_query eng query params)) ∧
  (∀ gen, keeps_connection (next eng gen)) ∧
  (∀ file_path file_type select_columns filter_conditions,
     keeps_connection
       (read_file eng file_path file_type select_columns filter_conditions)) ∧
  (∀ table_name data, keeps_connection (create_table eng table_name data)) ∧
  (∀ data complete_file_name,
     keeps_connection (save_parquet eng data complete_file_name)) ∧
  (∀ table_name file_path file_name,
     keeps_connection
       (save_table_as_parquet eng table_name file_path file_name)) ∧
  keeps_connection (connect_to_s3 eng aws) ∧
  (∀ A (m : M A) env,
     keeps_connection m →
     live_handles (calls (m env).2) = live_handles (calls env)).
Proof.
  split_and!.
  - apply keeps_execute_query.
  - apply keeps_next.
  - intros. unfold read_file. case_bool_decide; [apply keeps_raise|].
    apply keeps_bind; [apply keeps_log|]. intros _. apply keeps_try_except.
    apply keeps_bind; [apply keeps_execute_query|]. intros result.
    apply keeps_bind; [apply keeps_log|]. intros _. apply keeps_ret.
  - intros. apply keeps_bind; [apply keeps_log|]. intros _.
    apply keeps_try_except. destruct data; [apply keeps_raise|].
    apply keeps_bind; [apply keeps_conn_execute|]. intros _. apply keeps_log.
  - intros. apply keeps_bind; [apply keeps_log|]. intros _.
    apply keeps_try_except.
    apply keeps_bind; [apply keeps_conn_execute|]. intros _.
    apply keeps_bind; [apply keeps_conn_execute|]. intros _.
    apply keeps_bind; [apply keeps_conn_execute|]. intros _. apply keeps_log.
  - intros. apply keeps_bind; [apply keeps_log|]. intros _.
    apply keeps_try_except.
    apply keeps_bind; [apply keeps_conn_execute|]. intros _. apply keeps_log.
  - apply keeps_connect_to_s3.
  - intros A m env Hm. destruct (Hm env) as (_ & (added & Hc & Hq) & _).
    rewrite Hc. by apply live_handles_query_calls.
Qed.

(** *** Opening *)

Lemma create_duckdb_connection_run env :
  let db := database_of (this env) in
  let h := length (calls env) in
  create_duckdb_connection eng env =
  match duckdb_connect eng (calls env) db with
  | None =>
      (Returned (),
       {| this := {| _conn := Some h; db_file := db_file (this env) |};
          calls := calls env ++ [DuckdbConnect db (Some h)];
          logs := logs env ++
            [(INFO,
              match db with
              | Some f =>
                  "DuckDB connection established with database file: " +:+ f
              | None => "In-memory DuckDB connection established"
              end)] |})
  | Some e =>
      (Raised e,
       {| this := this env; calls := calls env ++ [DuckdbConnect db None];
          logs := logs env |})
  end.
Proof.
  unfold create_duckdb_connection, database_of, connect. run.
  destruct (db_file (this env)) as [f|] eqn:Hdb; [case_bool_decide|]; run;
    destruct (duckdb_connect eng (calls env) _); run; by rewrite ?Hdb.
Qed.

(** X2: [create_duckdb_connection] asks the engine for the database file
    when [db_file] is set and not the empty string, and for an in-memory
    database otherwise.  When the engine accepts, the wrapper holds the new
    connection, which is live, and [db_file] is kept; when the engine
    refuses, that error is raised, the wrapper keeps whatever connection it
    had, no connection became live and nothing is logged. *)
Theorem create_duckdb_connection_opens env :
  let db := database_of (this env) in
  let h := length (calls env) in
  let after := (create_duckdb_connection eng env).2 in
  (duckdb_connect eng (calls env) db = None →
   (create_duckdb_connection eng env).1 = Returned () ∧
   _conn (this after) = Some h ∧
   db_file (this after) = db_file (this env) ∧
   calls after = calls env ++ [DuckdbConnect db (Some h)] ∧
   h ∈ live_handles (calls after)) ∧
  (∀ e, duckdb_connect eng (calls env) db = Some e →
        (create_duckdb_connection eng env).1 = Raised e ∧
        this after = this env ∧
        calls after = calls env ++ [DuckdbConnect db None] ∧
        live_handles (calls after) = live_handles (calls env) ∧
        logs after = logs env).
Proof.
  intros db h after. unfold after.
  rewrite create_duckdb_connection_run. fold db h. split.
  - intros Hok. rewrite Hok. simpl. split_and!; [done..|].
    rewrite live_handles_snoc. apply elem_of_union_l.
    by apply elem_of_singleton.
  - intros e Hrefused. rewrite Hrefused. simpl. split_and!; [done..| |done].
    by rewrite live_handles_snoc.
Qed.

(** X3: connecting again without closing overwrites [self._conn], and
    the wrapper never closes the first connection.  After two accepted
    calls of [create_duckdb_connection] the wrapper holds the second
    connection and no [close] was called on the first; a following [close]
    closes the second connection only, so that in the trace the first one
    stays opened and not closed. *)
Theorem reconnect_abandons_first_connection env :
  let db := database_of (this env) in
  let h1 := length (calls env) in
  let h2 := S (length (calls env)) in
  let twice :=
    (create_duckdb_connection eng (create_duckdb_connection eng env).2).2 in
  duckdb_connect eng (calls env) db = None →
  duckdb_connect eng (calls env ++ [DuckdbConnect db (Some h1)]) db = None →
  _conn (this twice) = Some h2 ∧
  h1 ∈ live_handles (calls twice) ∧
  _conn (this (close twice).2) = None ∧
  calls (close twice).2 =
    calls env ++ [DuckdbConnect db (Some h1); DuckdbConnect db (Some h2);
                  ConnClose h2] ∧
  h1 ∈ live_handles (calls (close twice).2).
Proof.
  intros db h1 h2 twice Hfirst Hsecond. unfold twice.
  rewrite (create_duckdb_connection_run env). fold db h1. rewrite Hfirst.
  simpl. rewrite create_duckdb_connection_run. unfold database_of. simpl.
  fold (database_of (this env)). fold db. rewrite Hsecond. simpl.
  rewrite length_app. simpl. replace (length (calls env) + 1) with h2
    by (unfold h2; lia).
  assert (Hlive : h1 ∈ live_handles
            ((calls env ++ [DuckdbConnect db (Some h1)]) ++
             [DuckdbConnect db (Some h2)])).
  { rewrite !live_handles_snoc. apply elem_of_union_r, elem_of_union_l.
    by apply elem_of_singleton. }
  split; [done|]. split; [exact Hlive|].
  split; [done|]. split.
  - by rewrite <- !app_assoc.
  - rewrite live_handles_snoc. apply elem_of_difference. split; [exact Hlive|].
    rewrite elem_of_singleton. unfold h1, h2. lia.
Qed.

(** X4: when the engine refuses the connection, [with] raises that
    error without running the body and without calling [__exit__]: the
    only engine call is the refused [connect], the wrapper is unchanged and
    nothing is logged. *)
Theorem with_scope_connect_refused {A} (body : M A) env e :
  duckdb_connect eng (calls env) (database_of (this env)) = Some e →
  with_scope eng body env =
    (Raised e,
     {| this := this env;
        calls := calls env ++ [DuckdbConnect (database_of (this env)) None];
        logs := logs env |}).
Proof.
  intros Hrefused. unfold with_scope, __enter__.
  rewrite create_duckdb_connection_run. by rewrite Hrefused.
Qed.

(** X5: a query in a scope.  When the engine accepts the connection,
    [with self: self.execute_query(query, params)] makes, in order, the
    [connect], the [execute], the [fetchall] (if the statement was
    accepted) and the [close]; its outcome is the outcome of the query, and
    the wrapper ends without a connection whether the query returned or
    raised. *)
Theorem scoped_query_opens_and_closes env query params :
  let db := database_of (this env) in
  let h := length (calls env) in
  let opened := calls env ++ [DuckdbConnect db (Some h)] in
  let answer := duckdb_execute eng opened h query params None in
  let left := with_scope eng (execute_query eng query params) env in
  duckdb_connect eng (calls env) db = None →
  left.1 = eager_outcome answer ∧
  _conn (this left.2) = None ∧
  calls left.2 =
    opened ++ ConnExecute h query params None ::
      match answer with Returned _ => [CursorFetchall] | Raised _ => [] end
    ++ [ConnClose h].
Proof.
  intros db h opened answer left Hok. unfold left, with_scope, __enter__.
  rewrite create_duckdb_connection_run. fold db h. rewrite Hok. simpl.
  set (env1 := {| this := _; calls := _; logs := _ |}).
  destruct (execute_query_open env1 h query params eq_refl)
    as (Hout & Hcalls & Hthis).
  simpl in Hout, Hcalls, Hthis. fold opened answer in Hout, Hcalls.
  unfold __exit__.
  destruct (execute_query eng query params env1) as [[data|e'] env2];
    simpl in *;
    (erewrite close_open by (rewrite Hthis; reflexivity)); simpl;
    rewrite Hout, Hcalls, <- !app_assoc; done.
Qed.

(** *** Remote storage *)

Lemma conn_install_extension_open env h ext :
  _conn (this env) = Some h →
  conn_install_extension eng ext env =
  (match duckdb_install_extension eng (calls env) h ext with
   | Some e => Raised e
   | None => Returned ()
   end,
   {| this := this env; calls := calls env ++ [ConnInstallExtension h ext];
      logs := logs env |}).
Proof.
  intros H. unfold conn_install_extension. rewrite bind_run.
  rewrite (conn_attr_open _ _ _ H). run.
  by destruct (duckdb_install_extension eng (calls env) h ext).
Qed.

Lemma conn_load_extension_open env h ext :
  _conn (this env) = Some h →
  conn_load_extension eng ext env =
  (match duckdb_load_extension eng (calls env) h ext with
   | Some e => Raised e
   | None => Returned ()
   end,
   {| this := this env; calls := calls env ++ [ConnLoadExtension h ext];
      logs := logs env |}).
Proof.
  intros H. unfold conn_load_extension. rewrite bind_run.
  rewrite (conn_attr_open _ _ _ H). run.
  by destruct (duckdb_load_extension eng (calls env) h ext).
Qed.

(** One engine call of [connect_to_s3] on the open connection [h]. *)
Local Ltac s3_step Hopen h :=
  first [ rewrite (conn_execute_open _ h) by exact Hopen
        | rewrite (conn_install_extension_open _ h) by exact Hopen
        | rewrite (conn_load_extension_open _ h) by exact Hopen ];
  simpl.

(** [connect_to_s3] past its checks is [calls_until_refused] on
    [s3_calls]. *)
Lemma connect_to_s3_until_refused env h creds :
  _conn (this env) = Some h →
  get_caller_identity aws = None →
  get_credentials aws = Some (Returned creds) →
  calls (connect_to_s3 eng aws env).2 =
    calls env ++
    (calls_until_refused eng (calls env) (s3_calls h aws creds)).1 ∧
  (connect_to_s3 eng aws env).1 =
    match (calls_until_refused eng (calls env) (s3_calls h aws creds)).2 with
    | Some e => Raised e
    | None => Returned ()
    end.
Proof.
  intros Hopen Hid Hcreds. unfold connect_to_s3. rewrite bind_run. simpl.
  rewrite Hopen, Hid, Hcreds. unfold s3_calls, set_call.
  unfold set_s3_credentials, install_and_load_extensions, aws_config.
  run.
  s3_step Hopen h.
  destruct (duckdb_execute eng _ h _ None None); run; [|done].
  s3_step Hopen h.
  destruct (duckdb_execute eng _ h _ None None); run;
    [|by rewrite <- ?app_assoc].
  s3_step Hopen h.
  destruct (duckdb_execute eng _ h _ None None); run;
    [|by rewrite <- ?app_assoc].
  s3_step Hopen h.
  destruct (duckdb_execute eng _ h _ None None); run;
    [|by rewrite <- ?app_assoc].
  s3_step Hopen h.
  destruct (duckdb_install_extension eng _ h _); run;
    [by rewrite <- ?app_assoc|].
  s3_step Hopen h.
  destruct (duckdb_load_extension eng _ h _); run;
    [by rewrite <- ?app_assoc|].
  s3_step Hopen h.
  destruct (duckdb_install_extension eng _ h _); run;
    [by rewrite <- ?app_assoc|].
  s3_step Hopen h.
  destruct (duckdb_load_extension eng _ h _); run;
    by rewrite <- ?app_assoc.
Qed.

(** Where [calls_until_refused] stops: at a call [k] of the list, all
    calls before it accepted; call [k] is the refused one, or else the
    last of the list. *)
Lemma calls_until_refused_stops todo :
  todo ≠ [] →
  ∀ tr, ∃ k c,
    todo !! k = Some c ∧
    (calls_until_refused eng tr todo).1 = take (S k) todo ∧
    (∀ j c', j < k → todo !! j = Some c' →
             refusal eng (tr ++ take j todo) c' = None) ∧
    (calls_until_refused eng tr todo).2 =
      refusal eng (tr ++ take k todo) c ∧
    (refusal eng (tr ++ take k todo) c = None → S k = length todo).
Proof.
  induction todo as [|c rest IH]; [done|]. intros _ tr. simpl.
  destruct (refusal eng tr c) as [e|] eqn:Hc.
  - exists 0, c. simpl. rewrite app_nil_r, Hc.
    split_and!; [done..|lia|done|done].
  - destruct rest as [|c2 rest].
    + exists 0, c. simpl. rewrite app_nil_r, Hc.
      split_and!; [done..|lia|done|done].
    + destruct (IH ltac:(done) (tr ++ [c]))
        as (k & c' & Hk & Hmade & Hbefore & Hout & Hlast).
      destruct (calls_until_refused eng (tr ++ [c]) (c2 :: rest))
        as [made out].
      simpl in Hmade, Hout. subst made.
      exists (S k), c'. split_and!.
      * exact Hk.
      * done.
      * intros [|j] c0 Hj Hc0.
        -- simpl in Hc0. inversion Hc0; subst c0.
           simpl. by rewrite app_nil_r.
        -- change (take (S j) (c :: c2 :: rest))
             with ([c] ++ take j (c2 :: rest)).
           rewrite (assoc_L (++)). apply Hbefore; [lia|exact Hc0].
      * change (take (S k) (c :: c2 :: rest))
          with ([c] ++ take k (c2 :: rest)).
        by rewrite (assoc_L (++)).
      * change (take (S k) (c :: c2 :: rest))
          with ([c] ++ take k (c2 :: rest)).
        rewrite (assoc_L (++)). intros Hacc. simpl. f_equal.
        by apply Hlast.
Qed.

(** X6: the engine calls of [connect_to_s3] come in one fixed order and
    end at the first refusal.  On an open connection, once the identity
    check passed and credentials were obtained, the calls made are the
    first [k + 1] of: the four [SET] statements (access key, secret key,
    session token, region), install and load of [httpfs], install and load
    of [aws].  The engine accepted every call before the last one made;
    when it refuses that last one, its error is what [connect_to_s3]
    raises, with the earlier calls not undone; when it accepts it, it was
    the eighth call and [connect_to_s3] returns. *)
Theorem connect_to_s3_calls_in_order env h creds :
  _conn (this env) = Some h →
  get_caller_identity aws = None →
  get_credentials aws = Some (Returned creds) →
  let todo := s3_calls h aws creds in
  ∃ k c,
    todo !! k = Some c ∧
    calls (connect_to_s3 eng aws env).2 = calls env ++ take (S k) todo ∧
    (∀ j c', j < k → todo !! j = Some c' →
             refusal eng (calls env ++ take j todo) c' = None) ∧
    (connect_to_s3 eng aws env).1 =
      match refusal eng (calls env ++ take k todo) c with
      | Some e => Raised e
      | None => Returned ()
      end ∧
    (refusal eng (calls env ++ take k todo) c = None → S k = 8) ∧
    ((connect_to_s3 eng aws env).1 = Returned () → take (S k) todo = todo).
Proof.
  intros Hopen Hid Hcreds todo.
  destruct (connect_to_s3_until_refused env h creds Hopen Hid Hcreds)
    as [Hcalls Hout]. fold todo in Hcalls, Hout.
  destruct (calls_until_refused_stops todo ltac:(done) (calls env))
    as (k & c & Hk & Hmade & Hbefore & Hend & Hlast).
  exists k, c. rewrite Hcalls, Hout, Hmade, Hend.
  split_and!; [done..|].
  destruct (refusal eng (calls env ++ take k todo) c) as [e|]; [done|].
  intros _. apply take_ge. rewrite (Hlast eq_refl). done.
Qed.

(** The first half of [connect_to_s3] when the engine accepts every
    statement: the four [SET]s were made, then the extensions follow. *)
Lemma connect_to_s3_sets env h creds :
  _conn (this env) = Some h →
  get_caller_identity aws = None →
  get_credentials aws = Some (Returned creds) →
  (∀ tr query, ∃ result,
     duckdb_execute eng tr h query None None = Returned result) →
  connect_to_s3 eng aws env =
  install_and_load_extensions eng
    {| this := this env;
       calls := calls env ++ take 4 (s3_calls h aws creds);
       logs := logs env ++ [(INFO, "S3 credentials set in DuckDB")] |}.
Proof.
  intros Hopen Hid Hcreds Haccepts. unfold connect_to_s3.
  rewrite bind_run. simpl. rewrite Hopen, Hid, Hcreds.
  unfold s3_calls, set_call, set_s3_credentials, aws_config. run.
  do 4 (s3_step Hopen h;
        match goal with
        | |- context [duckdb_execute eng ?tr h ?q None None] =>
            destruct (Haccepts tr q) as [? ->]
        end; run).
  by rewrite <- !app_assoc.
Qed.

(** X7: a complete [connect_to_s3].  On an open connection, with the
    identity confirmed, credentials at hand and an engine that accepts the
    statements and the extensions, the method returns, the trace grows by
    exactly the eight calls of [s3_calls], and the wrapper is unchanged.  A
    missing session token or region is written into its [SET] statement
    as the text [None]. *)
Theorem connect_to_s3_configures_session env h creds :
  _conn (this env) = Some h →
  get_caller_identity aws = None →
  get_credentials aws = Some (Returned creds) →
  (∀ tr query, ∃ result,
     duckdb_execute eng tr h query None None = Returned result) →
  (∀ tr ext, duckdb_install_extension eng tr h ext = None) →
  (∀ tr ext, duckdb_load_extension eng tr h ext = None) →
  (connect_to_s3 eng aws env).1 = Returned () ∧
  calls (connect_to_s3 eng aws env).2 = calls env ++ s3_calls h aws creds ∧
  this (connect_to_s3 eng aws env).2 = this env ∧
  (token creds = None →
   ConnExecute h "SET s3_session_token='None'" None None
     ∈ calls (connect_to_s3 eng aws env).2) ∧
  (region_name aws = None →
   ConnExecute h "SET s3_region='None'" None None
     ∈ calls (connect_to_s3 eng aws env).2).
Proof.
  intros Hopen Hid Hcreds Haccepts Hinstall Hload.
  rewrite (connect_to_s3_sets env h creds Hopen Hid Hcreds Haccepts).
  unfold install_and_load_extensions. run.
  do 2 (s3_step Hopen h; rewrite Hinstall; run;
        s3_step Hopen h; rewrite Hload; run).
  rewrite <- !app_assoc. simpl. split_and!; [done..| |].
  - intros ->. apply elem_of_app. right. unfold set_call. simpl.
    do 2 apply list_elem_of_further. apply list_elem_of_here.
  - intros ->. apply elem_of_app. right. unfold set_call. simpl.
    do 3 apply list_elem_of_further. apply list_elem_of_here.
Qed.

(** X8: a late failure leaves the credentials in the session.  When the
    engine accepts the four [SET] statements and then fails to install the
    first extension, [connect_to_s3] raises that error after the four
    statements were executed: the trace ends with them and the failed
    install, nothing is loaded, and nothing is reset. *)
Theorem connect_to_s3_install_failure_keeps_credentials env h creds e :
  _conn (this env) = Some h →
  get_caller_identity aws = None →
  get_credentials aws = Some (Returned creds) →
  (∀ tr query, ∃ result,
     duckdb_execute eng tr h query None None = Returned result) →
  (∀ tr, duckdb_install_extension eng tr h "httpfs" = Some e) →
  connect_to_s3 eng aws env =
  (Raised e,
   {| this := this env;
      calls := calls env ++
        [ set_call h "s3_access_key_id" (access_key creds);
          set_call h "s3_secret_access_key" (secret_key creds);
          set_call h "s3_session_token" (format_opt (token creds));
          set_call h "s3_region" (format_opt (region_name aws));
          ConnInstallExtension h "httpfs" ];
      logs := logs env ++ [(INFO, "S3 credentials set in DuckDB")] |}).
Proof.
  intros Hopen Hid Hcreds Haccepts Hinstall.
  rewrite (connect_to_s3_sets env h creds Hopen Hid Hcreds Haccepts).
  unfold install_and_load_extensions. run.
  s3_step Hopen h. rewrite Hinstall. run.
  by rewrite <- !app_assoc.
Qed.

(** *** The streaming path, call by call *)

Lemma drain_suspended_env rows :
  ∀ desc fail columns row_count env,
    drain eng (S (length rows))
      (GenSuspended columns
         {| description := desc; pending := rows; failure := fail |}
         row_count) env =
    Some (map (λ row, dict (zip columns row)) rows, fail,
          {| this := this env;
             calls := calls env ++ replicate (S (length rows)) CursorFetchone;
             logs := logs env ++
               [match fail with
                | Some e =>
                    (ERROR,
                     (if is_duckdb_Error e
                      then "DuckDB error executing query with fetch one: "
                      else "Unexpected error executing query with fetch one: ")
                     +:+ str e)
                | None =>
                    (INFO, "Query executed successfully. Yielded " +:+
                           pretty (row_count + length rows) +:+ " rows.")
                end] |}).
Proof.
  induction rows as [|row rest IH]; intros desc fail columns row_count env.
  - rewrite drain_step. unfold next, fetch_one_turn, fetchone. run.
    destruct fail as [e|]; run; [done|]. by rewrite Nat.add_0_r.
  - rewrite drain_step. unfold next, fetch_one_turn, fetchone. run.
    rewrite IH. simpl. rewrite <- app_assoc. simpl.
    by rewrite Nat.add_succ_r.
Qed.

(** X9: the generator counts what it yields.  On an open connection,
    for a statement the engine answers with a cursor of [n] rows whose
    fetch does not fail, a consumer with [n + 1] turns sees the [n]
    mappings and a normal end; the engine saw one [execute] and [n + 1]
    calls of [fetchone] (the last one returning [None]), never [fetchall];
    and the closing log record reports [n] rows. *)
Theorem streaming_counts_rows env h query params result :
  _conn (this env) = Some h →
  duckdb_execute eng (calls env) h query params None = Returned result →
  failure result = None →
  let n := length (pending result) in
  consume eng (S n) query params env =
  Some (rows_of result, None,
        {| this := this env;
           calls := calls env ++ ConnExecute h query params None ::
                    replicate (S n) CursorFetchone;
           logs := logs env ++
             [(INFO, "Executing query with fetch one: " +:+ query);
              (INFO, "Query executed successfully. Yielded " +:+ pretty n
                     +:+ " rows.")] |}).
Proof.
  intros Hopen Hanswer Hfetch n. unfold consume. simpl.
  rewrite drain_step, (next_created_open _ _ _ _ _ Hopen Hanswer).
  rewrite <- drain_step. destruct result as [desc rows fail].
  simpl in Hfetch. subst fail. unfold n. simpl.
  rewrite drain_suspended_env. simpl. by rewrite <- !app_assoc.
Qed.

(** X10: a failure while fetching costs the eager caller every row, and
    the streaming consumer none.  When the engine hands out a cursor that
    fails with [e] once its pending rows are read, [execute_query] raises
    [e] and returns no row, whereas the consumer of
    [execute_query_fetch_one] has seen every pending row, in order, when
    [e] reaches it. *)
Theorem fetch_failure_eager_against_streaming env h query params result e :
  _conn (this env) = Some h →
  duckdb_execute eng (calls env) h query params None = Returned result →
  failure result = Some e →
  (execute_query eng query params env).1 = Raised e ∧
  ∃ env',
    consume eng (S (length (pending result))) query params env =
    Some (rows_of result, Some e, env').
Proof.
  intros Hopen Hanswer Hfetch. split.
  - destruct (execute_query_open env h query params Hopen) as (Hout & _).
    rewrite Hout, Hanswer. unfold eager_outcome. by rewrite Hfetch.
  - unfold consume. simpl.
    rewrite drain_step, (next_created_open _ _ _ _ _ Hopen Hanswer).
    rewrite <- drain_step. destruct result as [desc rows fail].
    simpl in Hfetch. subst fail. simpl.
    rewrite drain_suspended_env. by eexists.
Qed.

(** X11: the generator looks at the connection when it runs, not when it
    is made.  A generator made on an open connection and first advanced
    after [close] raises [AttributeError], the engine having seen the
    [close] and nothing else; a generator made before the connection was
    opened and first advanced after an accepted [create_duckdb_connection]
    sends its statement to the new connection. *)
Theorem generator_reads_connection_when_run env query params :
  (∀ h,
     _conn (this env) = Some h →
     ∃ env',
       (gen ← execute_query_fetch_one query params;
        close ;; next eng gen) env =
       (Raised (AttributeError "'NoneType' object has no attribute 'execute'"),
        env') ∧
       calls env' = calls env ++ [ConnClose h]) ∧
  (duckdb_connect eng (calls env) (database_of (this env)) = None →
   let h := length (calls env) in
   ∃ rest,
     calls ((gen ← execute_query_fetch_one query params;
             create_duckdb_connection eng ;; next eng gen) env).2 =
     calls env ++ DuckdbConnect (database_of (this env)) (Some h) ::
       ConnExecute h query params None :: rest).
Proof.
  split.
  - intros h Hopen.
    assert (Hnext : raises_without_engine
              (next eng (GenCreated query params)) (close env).2
              (AttributeError "'NoneType' object has no attribute 'execute'")).
    { apply raises_after_info, raises_in_try, raises_bind.
      apply raises_conn_execute. apply close_returns. }
    destruct Hnext as (env' & Hrun & Hcalls & _). exists env'. split.
    + rewrite bind_run. simpl. rewrite bind_run.
      rewrite (close_open _ _ Hopen) in *. exact Hrun.
    + rewrite Hcalls. by rewrite (close_open _ _ Hopen).
  - intros Hok h. rewrite bind_run. simpl. rewrite bind_run.
    rewrite create_duckdb_connection_run. fold h. rewrite Hok. simpl.
    unfold next. run. unfold conn_execute. run.
    destruct (duckdb_execute eng _ h query params None) as [result|e]; run.
    + unfold fetch_one_turn, fetchone. run.
      destruct (pending result); [destruct (failure result)|]; run;
        rewrite <- !app_assoc; simpl; by eexists.
    + rewrite <- !app_assoc. simpl. by eexists.
Qed.

(** *** The values of a row mapping *)

Lemma execute_query_returns env h query params result :
  _conn (this env) = Some h →
  duckdb_execute eng (calls env) h query params None = Returned result →
  failure result = None →
  ∃ env', execute_query eng query params env =
          (Returned (rows_of result), env').
Proof.
  intros Hopen Hanswer Hfetch.
  destruct (execute_query_open env h query params Hopen) as (Hout & _).
  rewrite Hanswer in Hout. unfold eager_outcome in Hout.
  rewrite Hfetch in Hout.
  destruct (execute_query eng query params env) as [out env'].
  simpl in Hout. subst out. by exists env'.
Qed.

Lemma lookup_fold_insert_fresh (items : list (string * pyval)) (acc : Row) k :
  k ∉ items.*1 →
  fold_left (λ d kv, <[kv.1 := kv.2]> d) items acc !! k = acc !! k.
Proof.
  revert acc. induction items as [|[k' v'] items IH]; intros acc Hk; [done|].
  simpl in *. apply not_elem_of_cons in Hk as [Hne Hk].
  rewrite IH by done. by rewrite lookup_insert_ne.
Qed.

Lemma lookup_fold_insert_NoDup (items : list (string * pyval)) (acc : Row) k v :
  NoDup items.*1 → (k, v) ∈ items →
  fold_left (λ d kv, <[kv.1 := kv.2]> d) items acc !! k = Some v.
Proof.
  revert acc. induction items as [|[k' v'] items IH]; intros acc Hnd Hin.
  - by apply elem_of_nil in Hin.
  - simpl in *. apply NoDup_cons in Hnd as [Hfresh Hnd].
    apply elem_of_cons in Hin as [Heq|Hin].
    + inversion Heq; subst k' v'.
      rewrite lookup_fold_insert_fresh by done. apply lookup_insert_eq.
    + by apply IH.
Qed.

Lemma dict_zip_lookup (columns : list string) (row : list pyval) i c v :
  NoDup columns → length row = length columns →
  columns !! i = Some c → row !! i = Some v →
  dict (zip columns row) !! c = Some v.
Proof.
  intros Hnd Hlen Hc Hv. unfold dict. apply lookup_fold_insert_NoDup.
  - rewrite fst_zip by lia. exact Hnd.
  - apply (list_elem_of_lookup_2 _ i). by apply lookup_zip_Some.
Qed.

(** X12: with distinct column names a value is found under the name of
    its column.  When the engine answers with a well-formed cursor whose
    column names are pairwise distinct and whose fetch does not fail, the
    [j]-th mapping [execute_query] returns maps the name of the [i]-th
    column to the [i]-th value of the [j]-th row. *)
Theorem execute_query_value_by_column env h query params result
    j i values c v :
  _conn (this env) = Some h →
  duckdb_execute eng (calls env) h query params None = Returned result →
  failure result = None →
  cursor_wf result →
  NoDup (columns_of result) →
  pending result !! j = Some values →
  columns_of result !! i = Some c →
  values !! i = Some v →
  ∃ data env' row,
    execute_query eng query params env = (Returned data, env') ∧
    data !! j = Some row ∧
    row !! c = Some v.
Proof.
  intros Hopen Hanswer Hfetch Hwf Hnd Hrow Hcol Hval.
  destruct (execute_query_returns env h query params result Hopen Hanswer
              Hfetch) as [env' Hrun].
  exists (rows_of result), env', (dict (zip (columns_of result) values)).
  split; [exact Hrun|]. split.
  - unfold rows_of. by rewrite list_lookup_fmap, Hrow.
  - apply (dict_zip_lookup _ _ i); [done| |done..].
    unfold cursor_wf in Hwf. rewrite Forall_lookup in Hwf.
    rewrite (Hwf j values Hrow). unfold columns_of. by rewrite length_map.
Qed.

Lemma length_remove_dups_le (l : list string) :
  length (remove_dups l) ≤ length l.
Proof.
  induction l as [|x l IH]; simpl; [done|].
  destruct (decide_rel elem_of x l); simpl; lia.
Qed.

Lemma length_remove_dups_NoDup (l : list string) :
  length (remove_dups l) = length l ↔ NoDup l.
Proof.
  induction l as [|x l IH]; simpl.
  - split; [constructor|done].
  - pose proof (length_remove_dups_le l).
    destruct (decide_rel elem_of x l) as [Hin|Hout]; simpl.
    + split; [lia|]. intros Hnd. apply NoDup_cons in Hnd as [Hout _]. done.
    + rewrite NoDup_cons. split.
      * intros Hlen. split; [done|]. apply IH. lia.
      * intros [_ Hnd]. f_equal. by apply IH.
Qed.

Lemma size_list_to_set_remove_dups (l : list string) :
  size (list_to_set l : gset string) = length (remove_dups l).
Proof.
  rewrite <- (size_list_to_set (C := gset string) (remove_dups l))
    by apply NoDup_remove_dups.
  f_equal. apply set_eq. intros x.
  by rewrite !elem_of_list_to_set, elem_of_remove_dups.
Qed.

(** X13: columns of the same name collapse.  For a well-formed cursor
    whose fetch does not fail, every mapping [execute_query] returns has
    one key per distinct column name: never more keys than the cursor has
    columns, and as many exactly when the column names are pairwise
    distinct; otherwise values of the row are missing from the mapping. *)
Theorem execute_query_keys_per_distinct_column env h query params result :
  _conn (this env) = Some h →
  duckdb_execute eng (calls env) h query params None = Returned result →
  failure result = None →
  cursor_wf result →
  ∃ data env',
    execute_query eng query params env = (Returned data, env') ∧
    Forall (λ row : Row,
              size row = length (remove_dups (columns_of result)) ∧
              size row ≤ length (description result) ∧
              (size row = length (description result) ↔
               NoDup (columns_of result)))
           data.
Proof.
  intros Hopen Hanswer Hfetch Hwf.
  destruct (execute_query_returns env h query params result Hopen Hanswer
              Hfetch) as [env' Hrun].
  exists (rows_of result), env'. split; [exact Hrun|].
  eapply Forall_impl; [exact (rows_of_dom result Hwf)|]. intros row Hdom.
  simpl in Hdom.
  assert (Hsize : size row = length (remove_dups (columns_of result))).
  { rewrite <- size_list_to_set_remove_dups, <- Hdom. symmetry.
    apply size_dom. }
  assert (Hcols : length (columns_of result) = length (description result)).
  { unfold columns_of. by rewrite length_map. }
  rewrite Hsize, <- Hcols. split; [done|]. split.
  - apply length_remove_dups_le.
  - apply length_remove_dups_NoDup.
Qed.

(** *** Errors on their way out *)

(** X14: an engine error passes two handlers in [read_file].  On an open
    connection and for a recognised file type, when the engine rejects the
    statement with [e], [read_file] raises [e] itself; the engine saw the
    one [execute] and no fetch; and the log shows the error twice, first
    from [execute_query], then from [read_file], each line naming the
    error as a DuckDB error or as an unexpected one, by its class. *)
Theorem read_file_logs_engine_error_twice env h file_path file_type
    select_columns filter_conditions e :
  file_type ∈ ["csv"; "parquet"] →
  _conn (this env) = Some h →
  let query :=
    read_file_query file_path file_type select_columns filter_conditions in
  duckdb_execute eng (calls env) h query None None = Raised e →
  read_file eng file_path file_type select_columns filter_conditions env =
  (Raised e,
   {| this := this env;
      calls := calls env ++ [ConnExecute h query None None];
      logs := logs env ++
        [(INFO, "Reading " +:+ upper file_type +:+ " file from '" +:+
                file_path +:+ "'");
         (INFO, "Executing query: " +:+ query);
         (ERROR, (if is_duckdb_Error e
                  then "DuckDB error executing query: "
                  else "Unexpected error executing query: ") +:+ str e);
         (ERROR, (if is_duckdb_Error e
                  then "DuckDB error reading " +:+ upper file_type +:+
                       " file: "
                  else "Unexpected error reading " +:+ upper file_type +:+
                       " file: ") +:+ str e)] |}).
Proof.
  intros Hft Hopen query Hrejected. unfold read_file.
  rewrite bool_decide_eq_false_2; [|by intros Hn; apply Hn].
  fold query. unfold execute_query. run.
  rewrite (conn_execute_open _ h) by exact Hopen. simpl.
  rewrite Hrejected. run. by rewrite <- !app_assoc.
Qed.

(** X15: when the engine refuses the first statement of [save_parquet],
    that error is raised and logged once, and neither the [COPY] nor the
    [DROP] is sent. *)
Theorem save_parquet_create_refused env h data complete_file_name e :
  _conn (this env) = Some h →
  let df := Some (pd_DataFrame data) in
  let create := "CREATE TEMPORARY TABLE temp_table AS SELECT * FROM df" in
  duckdb_execute eng (calls env) h create None df = Raised e →
  save_parquet eng data complete_file_name env =
  (Raised e,
   {| this := this env;
      calls := calls env ++ [ConnExecute h create None df];
      logs := logs env ++
        [(INFO, "Saving data to Parquet file at '" +:+ complete_file_name
                +:+ "'");
         (ERROR, (if is_duckdb_Error e
                  then "DuckDB error saving Parquet file: "
                  else "Unexpected error saving Parquet file: ")
                 +:+ str e)] |}).
Proof.
  intros Hopen df create Hrefused. unfold save_parquet. run.
  rewrite (conn_execute_open _ h) by exact Hopen. simpl.
  fold df create. rewrite Hrefused. run. by rewrite <- !app_assoc.
Qed.

(** *** Exporting a table *)

Lemma os_path_join_relative a b :
  String.prefix "/" b = false →
  os_path_join a b =
  if bool_decide (a = "") || endswith_sep a then a +:+ b
  else a +:+ "/" +:+ b.
Proof.
  destruct b as [|c b]; [done|]. intros Hrel. unfold os_path_join.
  destruct c as [[] [] [] [] [] [] [] []]; try reflexivity.
  simpl in Hrel. by destruct b.
Qed.

(** X16: [save_table_as_parquet] sends one statement,
    [COPY (SELECT * FROM <table_name>) TO '<path>' (FORMAT PARQUET)], and
    returns or raises as the engine answers it.  The path is the file name
    with [.parquet] appended, joined to the directory: a file name that
    starts with [/] replaces the directory altogether; otherwise the two
    are joined by one [/], which is left out when the directory is empty
    or already ends in [/]. *)
Theorem save_table_as_parquet_statement env h table_name file_path file_name :
  _conn (this env) = Some h →
  let full_path := os_path_join file_path (file_name +:+ ".parquet") in
  let query := "COPY (SELECT * FROM " +:+ table_name +:+ ") TO '" +:+
               full_path +:+ "' (FORMAT PARQUET)" in
  calls (save_table_as_parquet eng table_name file_path file_name env).2 =
    calls env ++ [ConnExecute h query None None] ∧
  (save_table_as_parquet eng table_name file_path file_name env).1 =
    match duckdb_execute eng (calls env) h query None None with
    | Returned _ => Returned ()
    | Raised e => Raised e
    end ∧
  (String.prefix "/" file_name = true →
   full_path = file_name +:+ ".parquet") ∧
  (String.prefix "/" file_name = false →
   full_path =
     if bool_decide (file_path = "") || endswith_sep file_path
     then file_path +:+ file_name +:+ ".parquet"
     else file_path +:+ "/" +:+ file_name +:+ ".parquet").
Proof.
  intros Hopen full_path query. split_and!.
  - unfold save_table_as_parquet. fold full_path query. run.
    rewrite (conn_execute_open _ h) by exact Hopen. simpl.
    destruct (duckdb_execute eng (calls env) h query None None); by run.
  - unfold save_table_as_parquet. fold full_path query. run.
    rewrite (conn_execute_open _ h) by exact Hopen. simpl.
    destruct (duckdb_execute eng (calls env) h query None None); by run.
  - unfold full_path. destruct file_name as [|c rest]; [done|].
    by destruct c as [[] [] [] [] [] [] [] []].
  - intros Hrel. unfold full_path. apply os_path_join_relative.
    destruct file_name as [|c rest]; [done|].
    destruct c as [[] [] [] [] [] [] [] []]; try done.
    simpl in Hrel. by destruct rest.
Qed.

(** C9 (the code departs from the claim): [save_parquet] asks for no
    format.  On an open connection whose engine accepts every statement it
    returns after exactly three calls, the temporary table made from the
    dataset, the copy and the drop, but the copy is
    [COPY temp_table TO '<complete_file_name>'] and nothing more: no
    columnar format is requested, the engine is left to choose one from
    the file name.  The sibling [save_table_as_parquet] ends its [COPY]
    statement with [(FORMAT PARQUET)]. *)
Theorem save_parquet_copy_names_no_format env h data complete_file_name :
  _conn (this env) = Some h →
  (∀ tr query df, ∃ result,
     duckdb_execute eng tr h query None df = Returned result) →
  let df := Some (pd_DataFrame data) in
  (save_parquet eng data complete_file_name env).1 = Returned () ∧
  calls (save_parquet eng data complete_file_name env).2 =
    calls env ++
    [ConnExecute h "CREATE TEMPORARY TABLE temp_table AS SELECT * FROM df"
       None df;
     ConnExecute h ("COPY temp_table TO '" +:+ complete_file_name +:+ "'")
       None df;
     ConnExecute h "DROP TABLE temp_table" None df] ∧
  ∀ table_name file_path file_name,
    calls (save_table_as_parquet eng table_name file_path file_name env).2 =
      calls env ++
      [ConnExecute h
         ("COPY (SELECT * FROM " +:+ table_name +:+ ") TO '" +:+
          os_path_join file_path (file_name +:+ ".parquet") +:+
          "' (FORMAT PARQUET)") None None].
Proof.
  intros Hopen Haccepts df. split_and!.
  - unfold save_parquet. run. fold df.
    do 3 (rewrite (conn_execute_open _ h) by exact Hopen; simpl;
          match goal with
          | |- context [duckdb_execute eng ?tr h ?q None df] =>
              destruct (Haccepts tr q df) as [? ->]
          end; run).
    done.
  - unfold save_parquet. run. fold df.
    do 3 (rewrite (conn_execute_open _ h) by exact Hopen; simpl;
          match goal with
          | |- context [duckdb_execute eng ?tr h ?q None df] =>
              destruct (Haccepts tr q df) as [? ->]
          end; run).
    by rewrite <- !app_assoc.
  - intros table_name file_path file_name. unfold save_table_as_parquet. run.
    rewrite (conn_execute_open _ h) by exact Hopen. simpl.
    destruct (duckdb_execute eng (calls env) h _ None None); by run.
Qed.

End Properties.

(** * The properties at sample inputs *)

Lemma closed_connection_raises_AttributeError_witness :
  _conn (this fresh_env) = None ∧
  raises_without_engine (execute_query sample_engine "SELECT 1" None)
    fresh_env
    (AttributeError "'NoneType' object has no attribute 'execute'").
Proof.
  split; [reflexivity|].
  exact (proj1 (closed_connection_raises_AttributeError
                  sample_engine sample_boto3 fresh_env eq_refl)
               "SELECT 1" None).
Defined.

Lemma read_file_rejects_unknown_file_type_witness :
  ("xml" ∉ ["csv"; "parquet"]) ∧
  read_file sample_engine "data.xml" "xml" None None open_env =
  (Raised (ValueError "file_type must be either 'csv' or 'parquet'"),
   open_env).
Proof.
  assert (Hxml : "xml" ∉ ["csv"; "parquet"]).
  { apply (bool_decide_unpack _). vm_compute. exact I. }
  split; [exact Hxml|].
  exact (read_file_rejects_unknown_file_type sample_engine open_env
           "data.xml" "xml" None None Hxml).
Defined.

Lemma create_table_requires_data_witness :
  _conn (this open_env) = Some 0 ∧
  calls (create_table sample_engine "t" [sample_row] open_env).2 =
    calls open_env ++
    [ConnExecute 0 "CREATE TABLE t AS SELECT * FROM df" None
       (Some (pd_DataFrame [sample_row]))].
Proof.
  split; [reflexivity|].
  exact (proj1 (proj2 (create_table_requires_data sample_engine open_env "t")
                      0 sample_row [] eq_refl)).
Defined.

Lemma execute_query_fetch_one_is_lazy_witness :
  _conn (this open_env) = Some 0 ∧
  duckdb_execute rejecting_engine (calls open_env) 0 "SELEC 1" None None =
    Raised (DuckDBError "Parser Error: syntax error") ∧
  execute_query_fetch_one "SELEC 1" None open_env =
    (Returned (GenCreated "SELEC 1" None), open_env) ∧
  ∃ env',
    next rejecting_engine (GenCreated "SELEC 1" None) open_env =
      (Raised (DuckDBError "Parser Error: syntax error"), env') ∧
    calls env' = calls open_env ++ [ConnExecute 0 "SELEC 1" None None].
Proof.
  split; [reflexivity|]. split; [reflexivity|].
  pose proof (execute_query_fetch_one_is_lazy rejecting_engine open_env
                "SELEC 1" None) as (Hcall & _ & Hreject & _).
  split; [exact Hcall|].
  exact (Hreject 0 _ eq_refl eq_refl).
Defined.

Lemma save_parquet_sequence_witness :
  _conn (this open_env) = Some 0 ∧
  calls (save_parquet copy_failing_engine [sample_row] "out.parquet"
           open_env).2 =
    calls open_env ++
    [ConnExecute 0 "CREATE TEMPORARY TABLE temp_table AS SELECT * FROM df"
       None (Some (pd_DataFrame [sample_row]));
     ConnExecute 0 "COPY temp_table TO 'out.parquet'"
       None (Some (pd_DataFrame [sample_row]))] ∧
  (save_parquet copy_failing_engine [sample_row] "out.parquet" open_env).1 =
    Raised (DuckDBError "IO Error: cannot open file").
Proof.
  split; [reflexivity|].
  pose proof (save_parquet_sequence copy_failing_engine open_env 0
                [sample_row] "out.parquet" eq_refl sample_cursor eq_refl)
    as [_ Hfail].
  destruct (Hfail (DuckDBError "IO Error: cannot open file") eq_refl)
    as [Hcalls Hout].
  split; [|exact Hout].
  rewrite Hcalls. by rewrite <- app_assoc.
Defined.

Lemma read_file_statement_witness :
  ("csv" ∈ ["csv"; "parquet"]) ∧
  _conn (this open_env) = Some 0 ∧
  calls (read_file sample_engine "path" "csv" (Some ["a"; "b"])
           (Some ["a > 1"]) open_env).2 =
    calls open_env ++
    [ConnExecute 0 "SELECT a, b FROM read_csv('path') WHERE (a > 1)"
       None None;
     CursorFetchall].
Proof.
  assert (Hcsv : "csv" ∈ ["csv"; "parquet"]) by apply list_elem_of_here.
  split; [exact Hcsv|]. split; [reflexivity|].
  pose proof (read_file_statement sample_engine "path" "csv"
                (Some ["a"; "b"]) (Some ["a > 1"])) as (_ & _ & Hrun).
  exact (proj2 (Hrun open_env 0 Hcsv eq_refl)).
Defined.

Lemma connect_to_s3_fails_before_configuring_witness :
  _conn (this open_env) = Some 0 ∧
  get_caller_identity unauthenticated_boto3 =
    Some (OtherException "NoCredentialsError"
                         "Unable to locate credentials") ∧
  connect_to_s3 sample_engine unauthenticated_boto3 open_env =
    (Raised (OtherException "NoCredentialsError"
                            "Unable to locate credentials"), open_env).
Proof.
  split; [reflexivity|]. split; [reflexivity|].
  exact (proj1 (connect_to_s3_fails_before_configuring sample_engine
                  unauthenticated_boto3 open_env 0 eq_refl) _ eq_refl).
Defined.

Lemma close_is_idempotent_and_scope_closes_witness :
  (__enter__ sample_engine fresh_env).1 = Returned () ∧
  (with_scope sample_engine failing_body fresh_env).1 =
    Raised (OtherException "RuntimeError" "boom") ∧
  _conn (this (with_scope sample_engine failing_body fresh_env).2) = None ∧
  calls (with_scope sample_engine failing_body fresh_env).2 =
    [DuckdbConnect None (Some 0); ConnClose 0] ∧
  0 ∉ live_handles (calls (with_scope sample_engine failing_body fresh_env).2).
Proof.
  split; [reflexivity|].
  pose proof (close_is_idempotent_and_scope_closes sample_engine)
    as (_ & _ & Hscope).
  destruct (Hscope unit failing_body fresh_env eq_refl)
    as (Hout & Hnone & _ & Hheld).
  destruct (Hheld 0 eq_refl) as [Hcalls Hlive].
  split; [exact Hout|]. split; [exact Hnone|]. split; [exact Hcalls|].
  exact Hlive.
Defined.

Lemma execute_query_rows_share_columns_witness :
  _conn (this open_env) = Some 0 ∧
  duckdb_execute sample_engine (calls open_env) 0 "SELECT a, b FROM t" None
    None = Returned sample_cursor ∧
  failure sample_cursor = None ∧
  cursor_wf sample_cursor ∧
  ∃ data env',
    execute_query sample_engine "SELECT a, b FROM t" None open_env =
      (Returned data, env') ∧
    length data = 2 ∧
    Forall (λ row : Row, dom row =@{gset string} list_to_set ["a"; "b"]) data.
Proof.
  assert (Hwf : cursor_wf sample_cursor).
  { unfold cursor_wf. simpl. by repeat constructor. }
  split; [reflexivity|]. split; [reflexivity|]. split; [reflexivity|].
  split; [exact Hwf|].
  exact (execute_query_rows_share_columns sample_engine open_env 0
           "SELECT a, b FROM t" None sample_cursor eq_refl eq_refl eq_refl
           Hwf).
Defined.

(** ** Sample runs *)

(** Both paths on the sample engine: the same two mappings, in order. *)
Example eager_and_streaming_sample :
  (execute_query sample_engine "SELECT a, b FROM t" None open_env).1 =
    Returned [dict [("a", PyInt 2); ("b", PyStr "x")];
              dict [("a", PyInt 3); ("b", PyStr "y")]] ∧
  (λ r, (r.1.1, r.1.2)) <$>
    consume sample_engine 3 "SELECT a, b FROM t" None open_env =
    Some ([dict [("a", PyInt 2); ("b", PyStr "x")];
           dict [("a", PyInt 3); ("b", PyStr "y")]], None).
Proof. split; vm_compute; reflexivity. Qed.

(** A later column of the same name overrides an earlier one. *)
Example dict_last_wins :
  dict (zip ["a"; "a"] [PyInt 1; PyInt 2]) = dict [("a", PyInt 2)].
Proof. vm_compute. reflexivity. Qed.

(** A successful [connect_to_s3]: four [SET]s in the order of the dict,
    then install and load of each extension. *)
Example connect_to_s3_sample :
  (connect_to_s3 sample_engine sample_boto3 open_env).1 = Returned () ∧
  calls (connect_to_s3 sample_engine sample_boto3 open_env).2 =
    [DuckdbConnect None (Some 0);
     ConnExecute 0 "SET s3_access_key_id='AKIA'" None None;
     ConnExecute 0 "SET s3_secret_access_key='secret'" None None;
     ConnExecute 0 "SET s3_session_token='token'" None None;
     ConnExecute 0 "SET s3_region='eu-west-1'" None None;
     ConnInstallExtension 0 "httpfs"; ConnLoadExtension 0 "httpfs";
     ConnInstallExtension 0 "aws"; ConnLoadExtension 0 "aws"].
Proof. split; vm_compute; reflexivity. Qed.

(** [save_table_as_parquet] names the format in its statement. *)
Example save_table_as_parquet_sample :
  calls (save_table_as_parquet sample_engine "t" "/tmp/out" "f" open_env).2 =
    [DuckdbConnect None (Some 0);
     ConnExecute 0
       "COPY (SELECT * FROM t) TO '/tmp/out/f.parquet' (FORMAT PARQUET)"
       None None].
Proof. vm_compute. reflexivity. Qed.

(** The log of a failed [execute_query] on a wrapper never connected. *)
Example execute_query_closed_log :
  logs (execute_query sample_engine "SELECT 1" None fresh_env).2 =
    [(INFO, "DuckDBWrapper initialized");
     (INFO, "Executing query: SELECT 1");
     (ERROR, "Unexpected error executing query: 'NoneType' object has no attribute 'execute'")].
Proof. vm_compute. reflexivity. Qed.

(** ** Further properties at sample inputs *)

Lemma operations_keep_the_connection_witness :
  keeps_connection (execute_query sample_engine "SELECT 1" None) ∧
  live_handles
    (calls (execute_query sample_engine "SELECT 1" None open_env).2) =
  live_handles (calls open_env).
Proof.
  destruct (operations_keep_the_connection sample_engine sample_boto3)
    as (Hquery & _ & _ & _ & _ & _ & _ & Hlive).
  split; [exact (Hquery "SELECT 1" None)|].
  exact (Hlive _ _ open_env (Hquery "SELECT 1" None)).
Defined.

Lemma create_duckdb_connection_opens_witness :
  duckdb_connect sample_engine (calls fresh_env)
    (database_of (this fresh_env)) = None ∧
  _conn (this (create_duckdb_connection sample_engine fresh_env).2) = Some 0 ∧
  0 ∈ live_handles
        (calls (create_duckdb_connection sample_engine fresh_env).2).
Proof.
  split; [reflexivity|].
  destruct (proj1 (create_duckdb_connection_opens sample_engine fresh_env)
              eq_refl) as (_ & Hconn & _ & _ & Hlive).
  split; [exact Hconn | exact Hlive].
Defined.

Lemma reconnect_abandons_first_connection_witness :
  duckdb_connect sample_engine (calls fresh_env)
    (database_of (this fresh_env)) = None ∧
  duckdb_connect sample_engine
    (calls fresh_env ++ [DuckdbConnect None (Some 0)])
    (database_of (this fresh_env)) = None ∧
  _conn (this (create_duckdb_connection sample_engine
                 (create_duckdb_connection sample_engine fresh_env).2).2) =
    Some 1 ∧
  0 ∈ live_handles
        (calls (close (create_duckdb_connection sample_engine
                  (create_duckdb_connection sample_engine fresh_env).2).2).2).
Proof.
  split; [reflexivity|]. split; [reflexivity|].
  destruct (reconnect_abandons_first_connection sample_engine fresh_env
              eq_refl eq_refl) as (Hconn & _ & _ & _ & Hlive).
  split; [exact Hconn | exact Hlive].
Defined.

Lemma with_scope_connect_refused_witness :
  duckdb_connect refusing_engine (calls fresh_env)
    (database_of (this fresh_env)) =
    Some (DuckDBError "IO Error: cannot open database") ∧
  with_scope refusing_engine (execute_query refusing_engine "SELECT 1" None)
    fresh_env =
  (Raised (DuckDBError "IO Error: cannot open database"),
   {| this := this fresh_env;
      calls := calls fresh_env ++ [DuckdbConnect None None];
      logs := logs fresh_env |}).
Proof.
  split; [reflexivity|].
  exact (with_scope_connect_refused refusing_engine
           (execute_query refusing_engine "SELECT 1" None) fresh_env _
           eq_refl).
Defined.

Lemma scoped_query_opens_and_closes_witness :
  duckdb_connect sample_engine (calls fresh_env)
    (database_of (this fresh_env)) = None ∧
  calls (with_scope sample_engine
           (execute_query sample_engine "SELECT 1" None) fresh_env).2 =
    [DuckdbConnect None (Some 0); ConnExecute 0 "SELECT 1" None None;
     CursorFetchall; ConnClose 0].
Proof.
  split; [reflexivity|].
  exact (proj2 (proj2 (scoped_query_opens_and_closes sample_engine fresh_env
                         "SELECT 1" None eq_refl))).
Defined.

Lemma connect_to_s3_calls_in_order_witness :
  _conn (this open_env) = Some 0 ∧
  get_caller_identity sample_boto3 = None ∧
  get_credentials sample_boto3 = Some (Returned sample_credentials) ∧
  ∃ k c,
    s3_calls 0 sample_boto3 sample_credentials !! k = Some c ∧
    calls (connect_to_s3 offline_engine sample_boto3 open_env).2 =
      calls open_env ++
      take (S k) (s3_calls 0 sample_boto3 sample_credentials) ∧
    (connect_to_s3 offline_engine sample_boto3 open_env).1 =
      match refusal offline_engine
              (calls open_env ++
               take k (s3_calls 0 sample_boto3 sample_credentials)) c with
      | Some e => Raised e
      | None => Returned ()
      end.
Proof.
  split; [reflexivity|]. split; [reflexivity|]. split; [reflexivity|].
  destruct (connect_to_s3_calls_in_order offline_engine sample_boto3
              open_env 0 sample_credentials eq_refl eq_refl eq_refl)
    as (k & c & Hk & Hcalls & _ & Hout & _).
  exists k, c. split; [exact Hk|]. split; [exact Hcalls | exact Hout].
Defined.

Lemma connect_to_s3_configures_session_witness :
  _conn (this open_env) = Some 0 ∧
  get_caller_identity keys_only_boto3 = None ∧
  (connect_to_s3 sample_engine keys_only_boto3 open_env).1 = Returned () ∧
  ConnExecute 0 "SET s3_session_token='None'" None None
    ∈ calls (connect_to_s3 sample_engine keys_only_boto3 open_env).2 ∧
  ConnExecute 0 "SET s3_region='None'" None None
    ∈ calls (connect_to_s3 sample_engine keys_only_boto3 open_env).2.
Proof.
  split; [reflexivity|]. split; [reflexivity|].
  destruct (connect_to_s3_configures_session sample_engine keys_only_boto3
              open_env 0 _ eq_refl eq_refl eq_refl
              (λ _ _, ex_intro _ sample_cursor eq_refl)
              (λ _ _, eq_refl) (λ _ _, eq_refl))
    as (Hout & _ & _ & Htoken & Hregion).
  split; [exact Hout|]. split; [exact (Htoken eq_refl)|].
  exact (Hregion eq_refl).
Defined.

Lemma connect_to_s3_install_failure_keeps_credentials_witness :
  _conn (this open_env) = Some 0 ∧
  get_caller_identity sample_boto3 = None ∧
  get_credentials sample_boto3 = Some (Returned sample_credentials) ∧
  calls (connect_to_s3 offline_engine sample_boto3 open_env).2 =
    [DuckdbConnect None (Some 0);
     ConnExecute 0 "SET s3_access_key_id='AKIA'" None None;
     ConnExecute 0 "SET s3_secret_access_key='secret'" None None;
     ConnExecute 0 "SET s3_session_token='token'" None None;
     ConnExecute 0 "SET s3_region='eu-west-1'" None None;
     ConnInstallExtension 0 "httpfs"].
Proof.
  split; [reflexivity|]. split; [reflexivity|]. split; [reflexivity|].
  rewrite (connect_to_s3_install_failure_keeps_credentials offline_engine
             sample_boto3 open_env 0 sample_credentials _ eq_refl eq_refl
             eq_refl (λ _ _, ex_intro _ sample_cursor eq_refl)
             (λ _, eq_refl)).
  reflexivity.
Defined.

Lemma streaming_counts_rows_witness :
  _conn (this open_env) = Some 0 ∧
  duckdb_execute sample_engine (calls open_env) 0 "SELECT a, b FROM t" None
    None = Returned sample_cursor ∧
  failure sample_cursor = None ∧
  consume sample_engine 3 "SELECT a, b FROM t" None open_env =
  Some (rows_of sample_cursor, None,
        {| this := this open_env;
           calls := calls open_env ++
             [ConnExecute 0 "SELECT a, b FROM t" None None;
              CursorFetchone; CursorFetchone; CursorFetchone];
           logs := logs open_env ++
             [(INFO, "Executing query with fetch one: SELECT a, b FROM t");
              (INFO, "Query executed successfully. Yielded 2 rows.")] |}).
Proof.
  split; [reflexivity|]. split; [reflexivity|]. split; [reflexivity|].
  exact (streaming_counts_rows sample_engine open_env 0 "SELECT a, b FROM t"
           None sample_cursor eq_refl eq_refl eq_refl).
Defined.

Lemma fetch_failure_eager_against_streaming_witness :
  _conn (this open_env) = Some 0 ∧
  duckdb_execute flaky_engine (calls open_env) 0 "SELECT a, b FROM t" None
    None = Returned failing_cursor ∧
  failure failing_cursor =
    Some (DuckDBError "Conversion Error: bad value") ∧
  (execute_query flaky_engine "SELECT a, b FROM t" None open_env).1 =
    Raised (DuckDBError "Conversion Error: bad value") ∧
  ∃ env',
    consume flaky_engine 3 "SELECT a, b FROM t" None open_env =
    Some (rows_of failing_cursor,
          Some (DuckDBError "Conversion Error: bad value"), env').
Proof.
  split; [reflexivity|]. split; [reflexivity|]. split; [reflexivity|].
  exact (fetch_failure_eager_against_streaming flaky_engine open_env 0
           "SELECT a, b FROM t" None failing_cursor _ eq_refl eq_refl
           eq_refl).
Defined.

Lemma generator_reads_connection_when_run_witness :
  _conn (this open_env) = Some 0 ∧
  (∃ env',
     (gen ← execute_query_fetch_one "SELECT 1" None;
      close ;; next sample_engine gen) open_env =
     (Raised (AttributeError "'NoneType' object has no attribute 'execute'"),
      env') ∧
     calls env' = calls open_env ++ [ConnClose 0]) ∧
  duckdb_connect sample_engine (calls fresh_env)
    (database_of (this fresh_env)) = None ∧
  ∃ rest,
    calls ((gen ← execute_query_fetch_one "SELECT 1" None;
            create_duckdb_connection sample_engine ;;
            next sample_engine gen) fresh_env).2 =
    calls fresh_env ++ DuckdbConnect None (Some 0) ::
      ConnExecute 0 "SELECT 1" None None :: rest.
Proof.
  split; [reflexivity|]. split.
  - exact (proj1 (generator_reads_connection_when_run sample_engine open_env
                    "SELECT 1" None) 0 eq_refl).
  - split; [reflexivity|].
    exact (proj2 (generator_reads_connection_when_run sample_engine fresh_env
                    "SELECT 1" None) eq_refl).
Defined.

Lemma execute_query_value_by_column_witness :
  _conn (this open_env) = Some 0 ∧
  failure sample_cursor = None ∧
  cursor_wf sample_cursor ∧
  NoDup (columns_of sample_cursor) ∧
  pending sample_cursor !! 1 = Some [PyInt 3; PyStr "y"] ∧
  columns_of sample_cursor !! 1 = Some "b" ∧
  ∃ data env' row,
    execute_query sample_engine "SELECT a, b FROM t" None open_env =
      (Returned data, env') ∧
    data !! 1 = Some row ∧
    row !! "b" = Some (PyStr "y").
Proof.
  assert (Hwf : cursor_wf sample_cursor).
  { unfold cursor_wf. simpl. by repeat constructor. }
  assert (Hnd : NoDup (columns_of sample_cursor)).
  { apply (bool_decide_unpack _). vm_compute. exact I. }
  split; [reflexivity|]. split; [reflexivity|]. split; [exact Hwf|].
  split; [exact Hnd|]. split; [reflexivity|]. split; [reflexivity|].
  exact (execute_query_value_by_column sample_engine open_env 0
           "SELECT a, b FROM t" None sample_cursor 1 1 [PyInt 3; PyStr "y"]
           "b" (PyStr "y") eq_refl eq_refl eq_refl Hwf Hnd eq_refl eq_refl
           eq_refl).
Defined.

Lemma execute_query_keys_per_distinct_column_witness :
  _conn (this open_env) = Some 0 ∧
  failure sample_cursor = None ∧
  cursor_wf sample_cursor ∧
  ∃ data env',
    execute_query sample_engine "SELECT a, b FROM t" None open_env =
      (Returned data, env') ∧
    Forall (λ row : Row,
              size row = length (remove_dups (columns_of sample_cursor)) ∧
              size row ≤ length (description sample_cursor) ∧
              (size row = length (description sample_cursor) ↔
               NoDup (columns_of sample_cursor)))
           data.
Proof.
  assert (Hwf : cursor_wf sample_cursor).
  { unfold cursor_wf. simpl. by repeat constructor. }
  split; [reflexivity|]. split; [reflexivity|]. split; [exact Hwf|].
  exact (execute_query_keys_per_distinct_column sample_engine open_env 0
           "SELECT a, b FROM t" None sample_cursor eq_refl eq_refl eq_refl
           Hwf).
Defined.

Lemma read_file_logs_engine_error_twice_witness :
  ("csv" ∈ ["csv"; "parquet"]) ∧
  _conn (this open_env) = Some 0 ∧
  logs (read_file rejecting_engine "data.csv" "csv" None None open_env).2 =
    logs open_env ++
    [(INFO, "Reading CSV file from 'data.csv'");
     (INFO, "Executing query: SELECT * FROM read_csv('data.csv')");
     (ERROR, "DuckDB error executing query: Parser Error: syntax error");
     (ERROR, "DuckDB error reading CSV file: Parser Error: syntax error")].
Proof.
  assert (Hcsv : "csv" ∈ ["csv"; "parquet"]) by apply list_elem_of_here.
  split; [exact Hcsv|]. split; [reflexivity|].
  rewrite (read_file_logs_engine_error_twice rejecting_engine open_env 0
             "data.csv" "csv" None None _ Hcsv eq_refl eq_refl).
  reflexivity.
Defined.

Lemma save_parquet_create_refused_witness :
  _conn (this open_env) = Some 0 ∧
  calls (save_parquet rejecting_engine [sample_row] "out.parquet"
           open_env).2 =
    calls open_env ++
    [ConnExecute 0 "CREATE TEMPORARY TABLE temp_table AS SELECT * FROM df"
       None (Some (pd_DataFrame [sample_row]))].
Proof.
  split; [reflexivity|].
  rewrite (save_parquet_create_refused rejecting_engine open_env 0
             [sample_row] "out.parquet" _ eq_refl eq_refl).
  reflexivity.
Defined.

Lemma save_table_as_parquet_statement_witness :
  _conn (this open_env) = Some 0 ∧
  String.prefix "/" "f" = false ∧
  calls (save_table_as_parquet sample_engine "t" "/tmp/out" "f" open_env).2 =
    calls open_env ++
    [ConnExecute 0
       ("COPY (SELECT * FROM t) TO '" +:+
        os_path_join "/tmp/out" "f.parquet" +:+ "' (FORMAT PARQUET)")
       None None] ∧
  os_path_join "/tmp/out" ("f" +:+ ".parquet") = "/tmp/out/f.parquet".
Proof.
  split; [reflexivity|]. split; [reflexivity|].
  destruct (save_table_as_parquet_statement sample_engine open_env 0 "t"
              "/tmp/out" "f" eq_refl) as (Hcalls & _ & _ & Hrel).
  split; [exact Hcalls | exact (Hrel eq_refl)].
Defined.

(** ** [save_parquet] with a file name that is not a Parquet name *)

Lemma save_parquet_copy_names_no_format_witness :
  _conn (this open_env) = Some 0 ∧
  (save_parquet sample_engine [sample_row] "out.csv" open_env).1 =
    Returned () ∧
  calls (save_parquet sample_engine [sample_row] "out.csv" open_env).2 =
    calls open_env ++
    [ConnExecute 0 "CREATE TEMPORARY TABLE temp_table AS SELECT * FROM df"
       None (Some (pd_DataFrame [sample_row]));
     ConnExecute 0 "COPY temp_table TO 'out.csv'"
       None (Some (pd_DataFrame [sample_row]));
     ConnExecute 0 "DROP TABLE temp_table"
       None (Some (pd_DataFrame [sample_row]))] ∧
  calls (save_table_as_parquet sample_engine "t" "" "out" open_env).2 =
    calls open_env ++
    [ConnExecute 0 "COPY (SELECT * FROM t) TO 'out.parquet' (FORMAT PARQUET)"
       None None].
Proof.
  split; [reflexivity|].
  destruct (save_parquet_copy_names_no_format sample_engine open_env 0
              [sample_row] "out.csv" eq_refl
              (λ _ _ _, ex_intro _ sample_cursor eq_refl))
    as (Hout & Hcalls & Hsibling).
  split; [exact Hout|]. split; [exact Hcalls|].
  exact (Hsibling "t" "" "out").
Defined.
